(** * Universal AI API Proxy: schema translation layer

    A shallow embedding of [src/index.ts]: the credential extractor, the
    Claude and Gemini request/response translators, the max-token clamp and
    the two POST handlers, together with the properties of the translation
    contracts.

    Conventions of the embedding.
    - A JS string is a [string]; its characters stand for code units below
      256.
    - An optional property ([x?: T], [undefined], [null]) is an [option].
    - A token count is an integer of [Z]; the not-a-number that [parseInt]
      gives on a ceiling without digits is outside the model.
    - A [json] is a value the code holds as the arguments of a call or
      the input of a block.  Its numbers are the integers, the negative
      zero and the three non-finite numbers; a number with a fraction is
      not modelled.  An integer is printed in plain decimal, as JS prints
      every integer of magnitude below 10^21, and read back from plain
      decimal; a text with a fraction or an exponent is not read by the
      parser of the model.  The negative zero is printed as [0] and a
      non-finite number as [null], as [JSON.stringify] prints them, so
      that neither comes back from the text ([Json.reread]).
    - A JS object used as a record of JSON values is the list of its
      members in property order, every key once; the parser collects the
      members in the order of the text, which is the object [JSON.parse]
      builds for a text printed from such an object.
    - [Math.random] and [uuidv4] are oracles indexed by the number of draws
      made so far; the handlers thread the counters.
    - An exception is the [Throw] outcome; the handlers run in a monad of
      outcomes over a world that records what they do.
    - [console.log] and [console.error] are not modelled. *)

From Stdlib Require Import String Ascii List ZArith NArith Bool Lia.
From Stdlib Require QArith.
From Stdlib Require Import DecimalN DecimalPos DecimalZ DecimalFacts.
Import ListNotations.
Local Open Scope list_scope.
Local Open Scope string_scope.

(** ** JS string helpers *)

(** The double quote, code unit 34. *)
Notation "'DQ'" := (Ascii false true false false false true false false).

(** A text between double quotes. *)
Definition quoted (s : string) : string := String DQ (s ++ String DQ "").

(** [Array.prototype.push], on an array held as a list. *)
Definition push {A : Type} (l : list A) (x : A) : list A := (l ++ [x])%list.

(** [Array.prototype.join]. *)
Definition join (sep : string) (parts : list string) : string :=
  String.concat sep parts.

(** The line feed used as separator by the translators. *)
Definition LF : string := String (ascii_of_nat 10) "".

(** [String.prototype.startsWith]. *)
Fixpoint startsWith (s p : string) {struct p} : bool :=
  match p with
  | EmptyString => true
  | String a p' =>
      match s with
      | String b s' => (a =? b)%char && startsWith s' p'
      | EmptyString => false
      end
  end.

(** [String.prototype.slice] with one non-negative argument. *)
Fixpoint slice (n : nat) (s : string) {struct n} : string :=
  match n, s with
  | O, _ => s
  | S n', String _ s' => slice n' s'
  | S _, EmptyString => EmptyString
  end.

(** [String.prototype.substring(a, b)] for [a <= b]. *)
Definition substring (a b : nat) (s : string) : string :=
  String.substring a (b - a) s.

(** Truthiness of an optional string: [undefined], [null] and the empty
    string are falsy. *)
Definition truthy (o : option string) : bool :=
  match o with
  | Some (String _ _) => true
  | _ => false
  end.

(** [a || b] on optional strings. *)
Definition or_else (a b : option string) : option string :=
  if truthy a then a else b.

(** [a || d] where [d] is a string: used for defaults. *)
Definition or_default (a : option string) (d : string) : string :=
  match a with
  | Some (String c s) => String c s
  | _ => d
  end.

(** ** JSON values, [JSON.stringify] and [JSON.parse] *)

(** The JS numbers that are no JSON numbers.  [JSON.parse] gives an
    infinity for a literal beyond the range of the doubles, such as
    [1e999]; it never gives a not-a-number. *)
Inductive nonfinite : Type :=
| PosInfinity
| NegInfinity
| NaN.

(** A value: [JNum] an integer, [JNegZero] the number [-0], [JNonFinite]
    the numbers that JSON cannot write; an object is the list of its
    members in property order. *)
Unset Elimination Schemes.
Inductive json : Type :=
| JNull
| JBool (b : bool)
| JNum (z : Z)
| JStr (s : string)
| JArr (items : list json)
| JObj (members : list (string * json))
| JNegZero
| JNonFinite (k : nonfinite).
Set Elimination Schemes.

(** Induction over the nesting of arrays and objects. *)
Fixpoint json_ind (P : json -> Prop)
    (Hnull : P JNull)
    (Hbool : forall b, P (JBool b))
    (Hnum : forall z, P (JNum z))
    (Hstr : forall s, P (JStr s))
    (Harr : forall items, Forall P items -> P (JArr items))
    (Hobj : forall members,
        Forall (fun kv => P (snd kv)) members -> P (JObj members))
    (Hnegzero : P JNegZero)
    (Hnonfinite : forall k, P (JNonFinite k))
    (v : json) {struct v} : P v :=
  let rec := json_ind P Hnull Hbool Hnum Hstr Harr Hobj Hnegzero Hnonfinite in
  match v with
  | JNull => Hnull
  | JBool b => Hbool b
  | JNum z => Hnum z
  | JStr s => Hstr s
  | JArr items =>
      Harr items
        ((fix all (l : list json) : Forall P l :=
            match l with
            | [] => Forall_nil P
            | x :: l' => Forall_cons x (rec x) (all l')
            end) items)
  | JObj members =>
      Hobj members
        ((fix all (l : list (string * json))
            : Forall (fun kv => P (snd kv)) l :=
            match l with
            | [] => Forall_nil _
            | kv :: l' => Forall_cons kv (rec (snd kv)) (all l')
            end) members)
  | JNegZero => Hnegzero
  | JNonFinite k => Hnonfinite k
  end.

Module Json.

(** *** Printing *)

Fixpoint string_of_uint (d : Decimal.uint) : string :=
  match d with
  | Decimal.Nil => ""
  | Decimal.D0 d => String "0" (string_of_uint d)
  | Decimal.D1 d => String "1" (string_of_uint d)
  | Decimal.D2 d => String "2" (string_of_uint d)
  | Decimal.D3 d => String "3" (string_of_uint d)
  | Decimal.D4 d => String "4" (string_of_uint d)
  | Decimal.D5 d => String "5" (string_of_uint d)
  | Decimal.D6 d => String "6" (string_of_uint d)
  | Decimal.D7 d => String "7" (string_of_uint d)
  | Decimal.D8 d => String "8" (string_of_uint d)
  | Decimal.D9 d => String "9" (string_of_uint d)
  end.

Definition string_of_N (n : N) : string := string_of_uint (N.to_uint n).

(** [Number::toString] on an integer. *)
Definition string_of_Z (z : Z) : string :=
  match z with
  | Z0 => "0"
  | Zpos p => string_of_N (Npos p)
  | Zneg p => String "-" (string_of_N (Npos p))
  end.

Definition hex_digit (n : nat) : ascii :=
  match n with
  | 0 => "0" | 1 => "1" | 2 => "2" | 3 => "3" | 4 => "4"
  | 5 => "5" | 6 => "6" | 7 => "7" | 8 => "8" | 9 => "9"
  | 10 => "a" | 11 => "b" | 12 => "c" | 13 => "d" | 14 => "e"
  | _ => "f"
  end%char.

(** One code unit of [QuoteJSONString]. *)
Definition quote_char (c : ascii) : string :=
  if (c =? DQ)%char then String "\" (String DQ "")
  else if (c =? "\")%char then "\\"
  else if (c =? ascii_of_nat 8)%char then "\b"
  else if (c =? ascii_of_nat 12)%char then "\f"
  else if (c =? ascii_of_nat 10)%char then "\n"
  else if (c =? ascii_of_nat 13)%char then "\r"
  else if (c =? ascii_of_nat 9)%char then "\t"
  else if Nat.ltb (nat_of_ascii c) 32 then
    "\u00" ++ String (hex_digit (nat_of_ascii c / 16))
                (String (hex_digit (nat_of_ascii c mod 16)) "")
  else String c "".

Fixpoint quote_body (s : string) : string :=
  match s with
  | EmptyString => ""
  | String c s' => quote_char c ++ quote_body s'
  end.

Definition QuoteJSONString (s : string) : string :=
  String DQ (quote_body s ++ String DQ "").

Fixpoint stringify (v : json) : string :=
  match v with
  | JNull => "null"
  | JBool true => "true"
  | JBool false => "false"
  | JNum z => string_of_Z z
  | JStr s => QuoteJSONString s
  | JArr items =>
      "[" ++
      (fix elements (l : list json) : string :=
         match l with
         | [] => ""
         | [x] => stringify x
         | x :: l' => stringify x ++ "," ++ elements l'
         end) items
      ++ "]"
  | JObj members =>
      "{" ++
      (fix props (l : list (string * json)) : string :=
         match l with
         | [] => ""
         | [(k, x)] => QuoteJSONString k ++ ":" ++ stringify x
         | (k, x) :: l' =>
             QuoteJSONString k ++ ":" ++ stringify x ++ "," ++ props l'
         end) members
      ++ "}"
  | JNegZero => "0"
  | JNonFinite _ => "null"
  end.

(** The value [JSON.parse] builds from the text [JSON.stringify] prints
    for [v]: [v] itself, but for the negative zero, read back as 0, and
    for the non-finite numbers, read back as [null]. *)
Fixpoint reread (v : json) : json :=
  match v with
  | JArr items => JArr (map reread items)
  | JObj members => JObj (map (fun kv => (fst kv, reread (snd kv))) members)
  | JNegZero => JNum 0
  | JNonFinite _ => JNull
  | _ => v
  end.

(** A value without negative zero and without non-finite numbers. *)
Fixpoint plain (v : json) : bool :=
  match v with
  | JArr items => forallb plain items
  | JObj members => forallb (fun kv => plain (snd kv)) members
  | JNegZero => false
  | JNonFinite _ => false
  | _ => true
  end.

(** *** Parsing *)

Definition is_ws (c : ascii) : bool :=
  (c =? " ")%char || (c =? ascii_of_nat 9)%char
  || (c =? ascii_of_nat 10)%char || (c =? ascii_of_nat 13)%char.

Fixpoint skip_ws (s : string) : string :=
  match s with
  | String c s' => if is_ws c then skip_ws s' else s
  | EmptyString => s
  end.

Definition digit_of (c : ascii) : option (Decimal.uint -> Decimal.uint) :=
  if (c =? "0")%char then Some Decimal.D0
  else if (c =? "1")%char then Some Decimal.D1
  else if (c =? "2")%char then Some Decimal.D2
  else if (c =? "3")%char then Some Decimal.D3
  else if (c =? "4")%char then Some Decimal.D4
  else if (c =? "5")%char then Some Decimal.D5
  else if (c =? "6")%char then Some Decimal.D6
  else if (c =? "7")%char then Some Decimal.D7
  else if (c =? "8")%char then Some Decimal.D8
  else if (c =? "9")%char then Some Decimal.D9
  else None.

(** The longest run of decimal digits at the head of [s]. *)
Fixpoint read_uint (s : string) : Decimal.uint * string :=
  match s with
  | String c s' =>
      match digit_of c with
      | Some d => let (u, r) := read_uint s' in (d u, r)
      | None => (Decimal.Nil, s)
      end
  | EmptyString => (Decimal.Nil, s)
  end.

(** The JSON grammar of an integer part: [0], or digits without a
    leading zero. *)
Definition canonical (u : Decimal.uint) : bool :=
  Decimal.uint_beq (Decimal.unorm u) u.

Definition read_N (s : string) : option (N * string) :=
  let (u, r) := read_uint s in
  if canonical u then Some (N.of_uint u, r) else None.

(** An integer literal; [-0] is the negative zero. *)
Definition parse_int (s : string) : option (json * string) :=
  match s with
  | String c s' =>
      if (c =? "-")%char then
        match read_N s' with
        | Some (n, r) =>
            Some (match n with
                  | N0 => JNegZero
                  | Npos p => JNum (Zneg p)
                  end, r)
        | None => None
        end
      else
        match read_N s with
        | Some (n, r) => Some (JNum (Z.of_N n), r)
        | None => None
        end
  | EmptyString => None
  end.

Definition hex_val (c : ascii) : option nat :=
  let n := nat_of_ascii c in
  if Nat.leb 48 n && Nat.leb n 57 then Some (n - 48)
  else if Nat.leb 97 n && Nat.leb n 102 then Some (n - 87)
  else if Nat.leb 65 n && Nat.leb n 70 then Some (n - 55)
  else None.

Definition hex4 (a b c d : ascii) : option nat :=
  match hex_val a, hex_val b, hex_val c, hex_val d with
  | Some x, Some y, Some z, Some w => Some (((x * 16 + y) * 16 + z) * 16 + w)
  | _, _, _, _ => None
  end.

(** The character denoted by a one-letter escape. *)
Definition unescape (e : ascii) : option ascii :=
  if (e =? DQ)%char then Some DQ
  else if (e =? "\")%char then Some "\"%char
  else if (e =? "/")%char then Some "/"%char
  else if (e =? "b")%char then Some (ascii_of_nat 8)
  else if (e =? "f")%char then Some (ascii_of_nat 12)
  else if (e =? "n")%char then Some (ascii_of_nat 10)
  else if (e =? "r")%char then Some (ascii_of_nat 13)
  else if (e =? "t")%char then Some (ascii_of_nat 9)
  else None.

(** The characters of a string literal after its opening quote, up to
    and including the closing quote.  A [\u] escape of a code unit above
    255 is outside the model. *)
Fixpoint parse_string_body (s : string) : option (string * string) :=
  match s with
  | EmptyString => None
  | String c s' =>
      if (c =? DQ)%char then Some ("", s')
      else if (c =? "\")%char then
        match s' with
        | String e s'' =>
            if (e =? "u")%char then
              match s'' with
              | String h1 (String h2 (String h3 (String h4 r))) =>
                  match hex4 h1 h2 h3 h4 with
                  | Some n =>
                      if Nat.ltb n 256 then
                        match parse_string_body r with
                        | Some (t, r') => Some (String (ascii_of_nat n) t, r')
                        | None => None
                        end
                      else None
                  | None => None
                  end
              | _ => None
              end
            else
              match unescape e with
              | Some c' =>
                  match parse_string_body s'' with
                  | Some (t, r') => Some (String c' t, r')
                  | None => None
                  end
              | None => None
              end
        | EmptyString => None
        end
      else if Nat.ltb (nat_of_ascii c) 32 then None
      else
        match parse_string_body s' with
        | Some (t, r') => Some (String c t, r')
        | None => None
        end
  end.

(** A keyword whose first letter has been consumed. *)
Definition keyword (rest_of_word : string) (n : nat) (v : json)
    (r : string) : option (json * string) :=
  if startsWith r rest_of_word then Some (v, slice n r) else None.

Fixpoint parse_value (fuel : nat) (s : string) : option (json * string) :=
  match fuel with
  | O => None
  | S fuel' =>
      match skip_ws s with
      | EmptyString => None
      | String c r =>
          if (c =? "n")%char then keyword "ull" 3 JNull r
          else if (c =? "t")%char then keyword "rue" 3 (JBool true) r
          else if (c =? "f")%char then keyword "alse" 4 (JBool false) r
          else if (c =? DQ)%char then
            match parse_string_body r with
            | Some (t, r') => Some (JStr t, r')
            | None => None
            end
          else if (c =? "[")%char then
            match skip_ws r with
            | EmptyString => None
            | String c' r' =>
                if (c' =? "]")%char then Some (JArr [], r')
                else
                  match parse_elements fuel' r with
                  | Some (l, r'') => Some (JArr l, r'')
                  | None => None
                  end
            end
          else if (c =? "{")%char then
            match skip_ws r with
            | EmptyString => None
            | String c' r' =>
                if (c' =? "}")%char then Some (JObj [], r')
                else
                  match parse_members fuel' r with
                  | Some (l, r'') => Some (JObj l, r'')
                  | None => None
                  end
            end
          else
            parse_int (String c r)
      end
  end
with parse_elements (fuel : nat) (s : string)
    : option (list json * string) :=
  match fuel with
  | O => None
  | S fuel' =>
      match parse_value fuel' s with
      | Some (v, r) =>
          match skip_ws r with
          | EmptyString => None
          | String c r' =>
              if (c =? ",")%char then
                match parse_elements fuel' r' with
                | Some (l, r'') => Some (v :: l, r'')
                | None => None
                end
              else if (c =? "]")%char then Some ([v], r')
              else None
          end
      | None => None
      end
  end
with parse_members (fuel : nat) (s : string)
    : option (list (string * json) * string) :=
  match fuel with
  | O => None
  | S fuel' =>
      match skip_ws s with
      | EmptyString => None
      | String q r =>
          if (q =? DQ)%char then
            match parse_string_body r with
            | Some (k, r1) =>
                match skip_ws r1 with
                | EmptyString => None
                | String c1 r2 =>
                    if (c1 =? ":")%char then
                      match parse_value fuel' r2 with
                      | Some (v, r3) =>
                          match skip_ws r3 with
                          | EmptyString => None
                          | String c3 r4 =>
                              if (c3 =? ",")%char then
                                match parse_members fuel' r4 with
                                | Some (l, r5) => Some ((k, v) :: l, r5)
                                | None => None
                                end
                              else if (c3 =? "}")%char then
                                Some ([(k, v)], r4)
                              else None
                          end
                      | None => None
                      end
                    else None
                end
            | None => None
            end
          else None
      end
  end.

(** The whole text is one value, surrounded by optional white space. *)
Definition parse (s : string) : option json :=
  match parse_value (S (String.length s)) s with
  | Some (v, r) =>
      match skip_ws r with
      | EmptyString => Some v
      | String _ _ => None
      end
  | None => None
  end.

End Json.

(** [JSON.stringify] with one argument, on the values of [json]. *)
Definition JSON_stringify : json -> string := Json.stringify.

(** [JSON.parse]; [None] stands for the [SyntaxError] it throws.  The
    texts it reads are those whose numbers are integers in plain decimal
    and whose escapes denote code units below 256; on another text it
    gives [None] where [JSON.parse] may return a value. *)
Definition JSON_parse : string -> option json := Json.parse.


(** A JS number that the translators only pass along. *)
Definition number : Type := QArith_base.Q.

(** [a || d] on an optional integer: [undefined] and [0] are falsy. *)
Definition num_or (a : option Z) (d : Z) : Z :=
  match a with
  | Some x => if Z.eqb x 0 then d else x
  | None => d
  end.

Definition Math_min (a b : Z) : Z := Z.min a b.

(** ** Claude API interfaces *)

Inductive Block : Type :=
| TextBlock (text : string)
| ToolUseBlock (id name : string) (input : json)
| ToolResultBlock (tool_use_id : string) (content : json).

Inductive MessageContent : Type :=
| ContentString (s : string)
| ContentBlocks (blocks : list Block).

Record Message : Type := {
  msg_role : string;
  msg_content : MessageContent
}.

Record Tool : Type := {
  tool_name : string;
  tool_description : option string;
  tool_input_schema : json
}.

Inductive ToolChoice : Type :=
| ChoiceString (s : string)
| ChoiceObject (type : string) (name : option string).

Record MessagesRequest : Type := {
  req_model : string;
  req_messages : list Message;
  req_max_tokens : option Z;
  req_temperature : option number;
  req_tools : option (list Tool);
  req_tool_choice : option ToolChoice
}.

Record ClaudeUsage : Type := {
  input_tokens : Z;
  output_tokens : Z
}.

Record MessagesResponse : Type := {
  resp_id : string;
  resp_model : string;
  resp_role : string;
  resp_type : string;
  resp_content : list Block;
  resp_stop_reason : string;
  resp_stop_sequence : option string;
  resp_usage : ClaudeUsage
}.

(** ** OpenAI chat-completions shapes *)

Record FunctionCall : Type := {
  fn_name : string;
  fn_arguments : string
}.

Record ToolCall : Type := {
  call_id : string;
  call_type : string;
  call_function : FunctionCall
}.

(** A message sent upstream; [chat_content = None] is [null] and
    [chat_tool_calls = None] is an absent property. *)
Record ChatMessage : Type := {
  chat_role : string;
  chat_content : option string;
  chat_tool_calls : option (list ToolCall)
}.

(** [{type, function: {name, description, parameters}}]. *)
Record FunctionTool : Type := {
  ft_type : string;
  ft_name : string;
  ft_description : string;
  ft_parameters : json
}.

Record ChatRequest : Type := {
  cr_apiKey : string;
  cr_baseURL : string;
  cr_model : string;
  cr_messages : list ChatMessage;
  cr_temperature : option number;
  cr_max_tokens : Z;
  cr_tools : option (list FunctionTool);
  cr_tool_choice : option ToolChoice;
  cr_stream : bool
}.

Record ResponseMessage : Type := {
  rm_content : option string;
  rm_tool_calls : option (list ToolCall)
}.

Record Choice : Type := {
  ch_message : ResponseMessage;
  ch_finish_reason : option string
}.

Record Usage : Type := {
  prompt_tokens : option Z;
  completion_tokens : option Z;
  total_tokens : option Z
}.

Record Completion : Type := {
  choices : list Choice;
  usage : option Usage
}.

(** ** Gemini API interfaces *)

Record InlineData : Type := {
  mimeType : string;
  data : string
}.

Record GeminiFunctionCall : Type := {
  fc_name : string;
  fc_args : json
}.

Record GeminiFunctionResponse : Type := {
  fr_name : string;
  fr_response : json
}.

Record GeminiPart : Type := {
  text : option string;
  inlineData : option InlineData;
  functionCall : option GeminiFunctionCall;
  functionResponse : option GeminiFunctionResponse
}.

Record GeminiContent : Type := {
  role : string;
  parts : list GeminiPart
}.

Record GenerationConfig : Type := {
  temperature : option number;
  maxOutputTokens : option Z;
  topP : option number;
  topK : option number
}.

Record FunctionDeclaration : Type := {
  fd_name : string;
  fd_description : string;
  fd_parameters : json
}.

Record GeminiTool : Type := {
  function_declarations : list FunctionDeclaration
}.

Record GeminiRequest : Type := {
  contents : list GeminiContent;
  generationConfig : option GenerationConfig;
  tools : option (list GeminiTool)
}.

Record Candidate : Type := {
  cand_content : GeminiContent;
  finishReason : string;
  index : Z
}.

Record UsageMetadata : Type := {
  promptTokenCount : Z;
  candidatesTokenCount : Z;
  totalTokenCount : Z
}.

Record GeminiResponse : Type := {
  candidates : list Candidate;
  usageMetadata : UsageMetadata;
  modelVersion : string
}.

(** The tagged variants of the data model, as the parts that carry exactly
    one of the optional properties. *)
Definition TextPart (t : string) : GeminiPart :=
  {| text := Some t; inlineData := None;
     functionCall := None; functionResponse := None |}.

Definition FunctionCallPart (n : string) (a : json) : GeminiPart :=
  {| text := None; inlineData := None;
     functionCall := Some {| fc_name := n; fc_args := a |};
     functionResponse := None |}.

(** ** Environment and provider configuration *)

Record Env : Type := {
  TARGET_MODEL : option string;
  TARGET_PROVIDER : option string;
  TARGET_BASE_URL : option string;
  TARGET_MAX_TOKENS : option string
}.

Record TargetConfig : Type := {
  cfg_model : string;
  cfg_provider : string;
  cfg_baseURL : string;
  cfg_maxTokens : Z
}.

Record Provider : Type := {
  prov_name : string;
  prov_baseURL : string;
  prov_models : list string;
  prov_maxTokens : Z
}.

(** ** Outcomes: a value, or a thrown exception *)

Inductive exn : Type :=
| SyntaxError
| TypeError
| RequestError.

Inductive outcome (A : Type) : Type :=
| Return (a : A)
| Throw (e : exn).
Arguments Return {A} a.
Arguments Throw {A} e.

(** ** [extractApiKey] *)

Definition extractApiKey (authorization : option string) : option string :=
  if negb (truthy authorization) then None
  else
    match authorization with
    | Some a => if startsWith a "Bearer " then Some (slice 7 a) else Some a
    | None => None
    end.

(** ** [convertMessages] *)

(** One turn of the loop over the blocks of a message. *)
Definition push_block (parts : list string) (block : Block) : list string :=
  match block with
  | TextBlock t => push parts t
  | ToolUseBlock _ name input =>
      let toolInfo := "[Tool Use: " ++ name ++ "] " ++ JSON_stringify input in
      push parts toolInfo
  | ToolResultBlock _ content =>
      push parts
        ("<tool_result>" ++ JSON_stringify content ++ "</tool_result>")
  end.

Definition convertMessage (m : Message) : ChatMessage :=
  match msg_content m with
  | ContentString s =>
      {| chat_role := msg_role m; chat_content := Some s;
         chat_tool_calls := None |}
  | ContentBlocks blocks =>
      let parts := fold_left push_block blocks [] in
      {| chat_role := msg_role m; chat_content := Some (join LF parts);
         chat_tool_calls := None |}
  end.

Definition convertMessages (messages : list Message) : list ChatMessage :=
  map convertMessage messages.

(** ** [convertTools] *)

Definition convertTools (tools : list Tool) : list FunctionTool :=
  map (fun t =>
         {| ft_type := "function";
            ft_name := tool_name t;
            ft_description := or_default (tool_description t) "";
            ft_parameters := tool_input_schema t |}) tools.

(** ** [convertToolCallsToAnthropic] *)

(** The loop over the calls, with the blocks pushed so far; a failing
    [JSON.parse] throws out of the loop. *)
Fixpoint push_tool_calls (toolCalls : list ToolCall) (content : list Block)
    : outcome (list Block) :=
  match toolCalls with
  | [] => Return content
  | call :: rest =>
      let fn := call_function call in
      match JSON_parse (fn_arguments fn) with
      | Some args =>
          push_tool_calls rest
            (push content (ToolUseBlock (call_id call) (fn_name fn) args))
      | None => Throw SyntaxError
      end
  end.

Definition convertToolCallsToAnthropic (toolCalls : list ToolCall)
    : outcome (list Block) :=
  push_tool_calls toolCalls [].

(** ** [getTargetConfig] and [createProvider] *)

Section Config.

(** [parseInt] on the token ceiling of the environment, for the strings
    that denote an integer. *)
Variable parseInt : string -> Z.

Definition getTargetConfig (env : Env) : TargetConfig :=
  {| cfg_model := or_default (TARGET_MODEL env) "moonshotai/kimi-k2-instruct";
     cfg_provider := or_default (TARGET_PROVIDER env) "groq";
     cfg_baseURL :=
       or_default (TARGET_BASE_URL env) "https://api.groq.com/openai/v1";
     cfg_maxTokens := parseInt (or_default (TARGET_MAX_TOKENS env) "16384") |}.

Definition createProvider (env : Env) : Provider :=
  let config := getTargetConfig env in
  {| prov_name := cfg_provider config;
     prov_baseURL := cfg_baseURL config;
     prov_models := [cfg_model config];
     prov_maxTokens := cfg_maxTokens config |}.

End Config.

(** ** The max-token clamp

    The specification's [effective = min(requested or ceiling, ceiling)],
    an absent or zero request counting as no request. *)
Definition clampMaxTokens (requested : option Z) (ceiling : Z) : Z :=
  Z.min (match requested with
         | Some r => if Z.eqb r 0 then ceiling else r
         | None => ceiling
         end) ceiling.

(** ** [convertGeminiToOpenAI] *)

(** What the translator returns:
    [{ messages, tools, max_tokens, temperature }]. *)
Record OpenAIArgs : Type := {
  oa_messages : list ChatMessage;
  oa_tools : option (list FunctionTool);
  oa_max_tokens : option Z;
  oa_temperature : option number
}.

Section GeminiRequestTranslator.

(** [Math.random().toString(36)] at the [k]-th draw. *)
Variable random_base36 : nat -> string.

Definition synthesized_id (k : nat) : string :=
  "call_" ++ substring 2 15 (random_base36 k).

(** One turn of the loop over the parts of a content entry; the state is
    [textParts], [toolCalls] and the number of draws made. *)
Definition push_part (acc : list string * list ToolCall * nat)
    (part : GeminiPart) : list string * list ToolCall * nat :=
  let '(textParts, toolCalls, k) := acc in
  match text part with
  | Some (String c t) => (push textParts (String c t), toolCalls, k)
  | _ =>
      match functionCall part with
      | Some fc =>
          (textParts,
           push toolCalls
             {| call_id := synthesized_id k;
                call_type := "function";
                call_function :=
                  {| fn_name := fc_name fc;
                     fn_arguments := JSON_stringify (fc_args fc) |} |},
           S k)
      | None => acc
      end
  end.

(** The body of the loop over [geminiRequest.contents]. *)
Definition convertContent (content : GeminiContent) (k : nat)
    : ChatMessage * nat :=
  let message_role :=
    if (role content =? "model")%string then "assistant" else role content in
  let '(textParts, toolCalls, k') :=
    fold_left push_part (parts content) ([], [], k) in
  let message_content :=
    if Nat.ltb 0 (List.length textParts) then join LF textParts else "" in
  if Nat.ltb 0 (List.length toolCalls) then
    ({| chat_role := message_role;
        chat_content :=
          if negb (truthy (Some message_content)) then None
          else Some message_content;
        chat_tool_calls := Some toolCalls |}, k')
  else
    ({| chat_role := message_role;
        chat_content := Some message_content;
        chat_tool_calls := None |}, k').

Definition push_content (acc : list ChatMessage * nat)
    (content : GeminiContent) : list ChatMessage * nat :=
  let (messages, k) := acc in
  let (message, k') := convertContent content k in
  (push messages message, k').

Definition convertFunctionDeclaration (func : FunctionDeclaration)
    : FunctionTool :=
  {| ft_type := "function";
     ft_name := fd_name func;
     ft_description := fd_description func;
     ft_parameters := fd_parameters func |}.

Definition convertGeminiToOpenAI (geminiRequest : GeminiRequest) (k : nat)
    : OpenAIArgs * nat :=
  let (messages, k') :=
    fold_left push_content (contents geminiRequest) ([], k) in
  let converted_tools :=
    match tools geminiRequest with
    | Some (t :: ts) =>
        Some (flat_map
                (fun tool =>
                   map convertFunctionDeclaration
                     (function_declarations tool))
                (t :: ts))
    | _ => None
    end in
  ({| oa_messages := messages;
      oa_tools := converted_tools;
      oa_max_tokens :=
        match generationConfig geminiRequest with
        | Some g => maxOutputTokens g
        | None => None
        end;
      oa_temperature :=
        match generationConfig geminiRequest with
        | Some g => temperature g
        | None => None
        end |}, k').

End GeminiRequestTranslator.

(** ** [convertOpenAIToGemini] *)

(** [x === s] for an optional string [x]. *)
Definition is_string (x : option string) (s : string) : bool :=
  match x with
  | Some y => (y =? s)%string
  | None => false
  end.

(** The loop over [message.tool_calls]. *)
Fixpoint push_function_calls (tool_calls : list ToolCall)
    (parts : list GeminiPart) : outcome (list GeminiPart) :=
  match tool_calls with
  | [] => Return parts
  | toolCall :: rest =>
      let fn := call_function toolCall in
      match JSON_parse (fn_arguments fn) with
      | Some args =>
          push_function_calls rest
            (push parts (FunctionCallPart (fn_name fn) args))
      | None => Throw SyntaxError
      end
  end.

Definition usage_field (u : option Usage) (field : Usage -> option Z) : Z :=
  num_or (match u with Some x => field x | None => None end) 0.

Definition convertOpenAIToGemini (openaiResponse : Completion)
    (originalModel : string) : outcome GeminiResponse :=
  match choices openaiResponse with
  | [] => Throw TypeError
  | choice :: _ =>
      let message := ch_message choice in
      let text_parts :=
        match rm_content message with
        | Some (String c t) => push [] (TextPart (String c t))
        | _ => []
        end in
      let all_parts :=
        match rm_tool_calls message with
        | Some tool_calls => push_function_calls tool_calls text_parts
        | None => Return text_parts
        end in
      match all_parts with
      | Throw e => Throw e
      | Return parts =>
          Return
            {| candidates :=
                 [{| cand_content := {| parts := parts; role := "model" |};
                     finishReason :=
                       if is_string (ch_finish_reason choice) "tool_calls"
                       then "STOP"
                       else if is_string (ch_finish_reason choice) "length"
                            then "MAX_TOKENS"
                            else "STOP";
                     index := 0 |}];
               usageMetadata :=
                 {| promptTokenCount :=
                      usage_field (usage openaiResponse) prompt_tokens;
                    candidatesTokenCount :=
                      usage_field (usage openaiResponse) completion_tokens;
                    totalTokenCount :=
                      usage_field (usage openaiResponse) total_tokens |};
               modelVersion := originalModel |}
      end
  end.

(** ** The Claude response branch of the [/v1/messages] handler

    [if (msg.tool_calls) { ... } else { ... }]: the content blocks and the
    stop reason of the response.  An array is truthy whatever its length. *)
Definition responseContent (msg : ResponseMessage)
    : outcome (list Block * string) :=
  match rm_tool_calls msg with
  | Some tool_calls =>
      match convertToolCallsToAnthropic tool_calls with
      | Return content => Return (content, "tool_use")
      | Throw e => Throw e
      end
  | None => Return ([TextBlock (or_default (rm_content msg) "")], "end_turn")
  end.

(** ** The handlers *)

(** What a handler passes to [c.json]. *)
Inductive Body : Type :=
| ErrorFlat (error : string)
| ErrorNested (code : Z) (message status : string)
| ClaudeBody (response : MessagesResponse)
| GeminiBody (response : GeminiResponse).

Record HttpResponse : Type := {
  http_status : Z;
  http_body : Body
}.

(** The inbound request as the handler reads it: [c.req.header],
    [c.req.json()], [c.req.param('model')] and [c.env].

    [header] is any function of the header name: the white space that the
    Fetch [Headers] object strips from both ends of a value is not taken
    off here, so that a context may hold a value no request delivers, such
    as the prefix ["Bearer "] with nothing behind the space.

    [param_model] is the string the handler hands to
    [convertOpenAIToGemini] as [originalModel].  The route is registered
    as [/v1beta/models/:model\:generateContent], a pattern whose parameter
    the router names after the whole segment behind the colon; the
    parameter [model] that the handler asks for is then [undefined], and
    the field stands for whatever the lookup gives.  The properties of the
    handlers hold for every value of the field and none says which model
    name a response reports. *)
Record Context (B : Type) : Type := {
  header : string -> option string;
  req_json : outcome B;
  param_model : string;
  env : Env
}.
Arguments header {B} _ _.
Arguments req_json {B} _.
Arguments param_model {B} _.
Arguments env {B} _.

(** What a handler does besides computing its response. *)
Inductive Event : Type :=
| ReadBody
| Translate (translator : string)
| Upstream (request : ChatRequest).

Record World : Type := {
  random_draws : nat;
  uuid_draws : nat;
  trace : list Event
}.

Definition M (A : Type) : Type := World -> outcome A * World.

Definition ret {A : Type} (a : A) : M A := fun w => (Return a, w).

Definition bind {A B : Type} (m : M A) (k : A -> M B) : M B :=
  fun w =>
    match m w with
    | (Return a, w') => k a w'
    | (Throw e, w') => (Throw e, w')
    end.

Definition throw {A : Type} (e : exn) : M A := fun w => (Throw e, w).

Definition lift {A : Type} (o : outcome A) : M A := fun w => (o, w).

Definition emit (e : Event) : M unit :=
  fun w =>
    (Return tt,
     {| random_draws := random_draws w; uuid_draws := uuid_draws w;
        trace := push (trace w) e |}).

(** [try { body } catch (error) { handler }]. *)
Definition try_catch {A : Type} (body handler : M A) : M A :=
  fun w =>
    match body w with
    | (Return a, w') => (Return a, w')
    | (Throw _, w') => handler w'
    end.

Declare Scope proxy_scope.
Delimit Scope proxy_scope with proxy.
Notation "x <- m ;; k" := (bind m (fun x => k))
  (at level 61, m at next level, right associativity) : proxy_scope.
Notation "m ;;; k" := (bind m (fun _ => k))
  (at level 61, right associativity) : proxy_scope.

(** [c.json(body, status)]. *)
Definition c_json (body : Body) (status : Z) : M HttpResponse :=
  ret {| http_status := status; http_body := body |}.

(** [await c.req.json()]. *)
Definition read_json {B : Type} (c : Context B) : M B :=
  bind (emit ReadBody) (fun _ => lift (req_json c)).

(** A call of a translator, recorded and then evaluated. *)
Definition translate {A : Type} (translator : string) (result : A) : M A :=
  bind (emit (Translate translator)) (fun _ => ret result).

(** [s.replace(/-/g, '')]. *)
Fixpoint remove_dashes (s : string) : string :=
  match s with
  | EmptyString => EmptyString
  | String c s' =>
      if (c =? "-")%char then remove_dashes s'
      else String c (remove_dashes s')
  end.

Section Handlers.

Variable parseInt : string -> Z.
Variable random_base36 : nat -> string.

(** [uuidv4()] at the [k]-th draw. *)
Variable uuidv4 : nat -> string.

(** [client.chat.completions.create], which throws when the call
    fails. *)
Variable chat_completions_create : ChatRequest -> outcome Completion.

Definition create (request : ChatRequest) : M Completion :=
  bind (emit (Upstream request))
    (fun _ => lift (chat_completions_create request)).

Definition fresh_message_id : M string :=
  fun w =>
    (Return
       ("msg_" ++ substring 0 12 (remove_dashes (uuidv4 (uuid_draws w)))),
     {| random_draws := random_draws w; uuid_draws := S (uuid_draws w);
        trace := trace w |}).

(** [convertGeminiToOpenAI], drawing from the world's [Math.random]. *)
Definition run_convertGeminiToOpenAI (geminiRequest : GeminiRequest)
    : M OpenAIArgs :=
  bind (emit (Translate "convertGeminiToOpenAI"))
    (fun _ w =>
       let (args, k) :=
         convertGeminiToOpenAI random_base36 geminiRequest (random_draws w) in
       (Return args,
        {| random_draws := k; uuid_draws := uuid_draws w;
           trace := trace w |})).

Local Open Scope proxy_scope.

(** [app.post('/v1/messages', ...)]. *)
Definition post_v1_messages (c : Context MessagesRequest) : M HttpResponse :=
  try_catch
    (let authorization :=
       or_else (header c "Authorization") (header c "x-api-key") in
     let apiKey := extractApiKey authorization in
     match apiKey with
     | Some (String k0 k1) =>
         request <- read_json c ;;
         let provider := createProvider parseInt (env c) in
         let targetConfig := getTargetConfig parseInt (env c) in
         openaiMessages <-
           translate "convertMessages"
             (convertMessages (req_messages request)) ;;
         tools <-
           match req_tools request with
           | Some ts =>
               converted <- translate "convertTools" (convertTools ts) ;;
               ret (Some converted)
           | None => ret None
           end ;;
         let maxTokens :=
           Math_min
             (num_or (req_max_tokens request) (prov_maxTokens provider))
             (prov_maxTokens provider) in
         completion <-
           create
             {| cr_apiKey := String k0 k1;
                cr_baseURL := prov_baseURL provider;
                cr_model := cfg_model targetConfig;
                cr_messages := openaiMessages;
                cr_temperature := req_temperature request;
                cr_max_tokens := maxTokens;
                cr_tools := tools;
                cr_tool_choice := req_tool_choice request;
                cr_stream := false |} ;;
         match choices completion with
         | [] => throw TypeError
         | choice :: _ =>
             let msg := ch_message choice in
             translated <-
               (match rm_tool_calls msg with
                | Some _ => emit (Translate "convertToolCallsToAnthropic")
                | None => ret tt
                end ;;;
                lift (responseContent msg)) ;;
             let (content, stopReason) :=
               translated : list Block * string in
             id <- fresh_message_id ;;
             c_json
               (ClaudeBody
                  {| resp_id := id;
                     resp_model :=
                       prov_name provider ++ "/" ++ req_model request;
                     resp_role := "assistant";
                     resp_type := "message";
                     resp_content := content;
                     resp_stop_reason := stopReason;
                     resp_stop_sequence := None;
                     resp_usage :=
                       {| input_tokens :=
                            usage_field (usage completion) prompt_tokens;
                          output_tokens :=
                            usage_field (usage completion)
                              completion_tokens |} |})
               200
         end
     | _ =>
         c_json
           (ErrorFlat
              "Missing API key in Authorization header or x-api-key header")
           401
     end)
    (c_json (ErrorFlat "Internal server error") 500).

(** [app.post('/v1beta/models/:model\\:generateContent', ...)]. *)
Definition post_generateContent (c : Context GeminiRequest)
    : M HttpResponse :=
  try_catch
    (let authorization :=
       or_else (header c "Authorization") (header c "x-goog-api-key") in
     let apiKey := extractApiKey authorization in
     match apiKey with
     | Some (String k0 k1) =>
         let model := param_model c in
         geminiRequest <- read_json c ;;
         let provider := createProvider parseInt (env c) in
         let targetConfig := getTargetConfig parseInt (env c) in
         args <- run_convertGeminiToOpenAI geminiRequest ;;
         let maxTokens :=
           Math_min
             (num_or (oa_max_tokens args) (prov_maxTokens provider))
             (prov_maxTokens provider) in
         completion <-
           create
             {| cr_apiKey := String k0 k1;
                cr_baseURL := prov_baseURL provider;
                cr_model := cfg_model targetConfig;
                cr_messages := oa_messages args;
                cr_temperature := oa_temperature args;
                cr_max_tokens := maxTokens;
                cr_tools := oa_tools args;
                cr_tool_choice := Some (ChoiceString "auto");
                cr_stream := false |} ;;
         geminiResponse <-
           (emit (Translate "convertOpenAIToGemini") ;;;
            lift (convertOpenAIToGemini completion model)) ;;
         c_json (GeminiBody geminiResponse) 200
     | _ =>
         c_json
           (ErrorFlat
              "Missing API key in Authorization header or x-goog-api-key header")
           401
     end)
    (c_json (ErrorNested 500 "Internal server error" "INTERNAL") 500).

End Handlers.

(** The world before a request is handled. *)
Definition fresh_world : World :=
  {| random_draws := 0; uuid_draws := 0; trace := [] |}.

(** ** The contracts, in the words of the specification *)

(** The piece a content block is flattened to: a text block to its text, a
    tool use to the marker [[Tool Use: <name>] <json-input>], a tool result
    to its JSON-serialized content between [<tool_result>] markers. *)
Definition flatten_block (b : Block) : string :=
  match b with
  | TextBlock t => t
  | ToolUseBlock _ name input =>
      "[Tool Use: " ++ name ++ "] " ++ JSON_stringify input
  | ToolResultBlock _ content =>
      "<tool_result>" ++ JSON_stringify content ++ "</tool_result>"
  end.

(** The OpenAI message a Claude message is translated to. *)
Definition flattened_message (m : Message) : ChatMessage :=
  {| chat_role := msg_role m;
     chat_content :=
       Some (match msg_content m with
             | ContentString s => s
             | ContentBlocks blocks => join LF (map flatten_block blocks)
             end);
     chat_tool_calls := None |}.

(** The text bucket of a Gemini entry: the texts of its text parts, a text
    part being a part with a non-empty [text]. *)
Fixpoint texts_of (ps : list GeminiPart) : list string :=
  match ps with
  | [] => []
  | p :: rest =>
      match text p with
      | Some (String c t) => String c t :: texts_of rest
      | _ => texts_of rest
      end
  end.

(** The texts of all the text parts of an entry, a text part being a part
    that has a [text], empty or not. *)
Fixpoint all_texts_of (ps : list GeminiPart) : list string :=
  match ps with
  | [] => []
  | p :: rest =>
      match text p with
      | Some t => t :: all_texts_of rest
      | None => all_texts_of rest
      end
  end.

(** The call bucket of a Gemini entry: the function calls of its
    function-call parts, a function-call part being a part with a
    [functionCall] and no text. *)
Fixpoint calls_of (ps : list GeminiPart) : list GeminiFunctionCall :=
  match ps with
  | [] => []
  | p :: rest =>
      match text p with
      | Some (String _ _) => calls_of rest
      | _ =>
          match functionCall p with
          | Some fc => fc :: calls_of rest
          | None => calls_of rest
          end
      end
  end.

(** The OpenAI role of a Gemini role. *)
Definition mapped_role (r : string) : string :=
  if (r =? "model")%string then "assistant" else r.

(** What a tool call says, whatever its synthesized id: the function name
    and the serialized arguments. *)
Definition call_payload (tc : ToolCall) : string * string :=
  (fn_name (call_function tc), fn_arguments (call_function tc)).

Definition serialized_call (fc : GeminiFunctionCall) : string * string :=
  (fc_name fc, JSON_stringify (fc_args fc)).

(** The tool calls of a message, none when the property is absent. *)
Definition tool_calls_of (m : ChatMessage) : list ToolCall :=
  match chat_tool_calls m with
  | Some tcs => tcs
  | None => []
  end.

(** The tool calls made of the call bucket of an entry, from the [k]-th
    draw of [Math.random] on: one per function call, in order. *)
Fixpoint synthesized_calls (random_base36 : nat -> string) (k : nat)
    (fcs : list GeminiFunctionCall) : list ToolCall :=
  match fcs with
  | [] => []
  | fc :: rest =>
      {| call_id := synthesized_id random_base36 k;
         call_type := "function";
         call_function :=
           {| fn_name := fc_name fc;
              fn_arguments := JSON_stringify (fc_args fc) |} |}
      :: synthesized_calls random_base36 (S k) rest
  end.

(** The OpenAI message of a Gemini entry: the mapped role; the text bucket
    joined with newlines, [null] for a turn of tool calls only; the tool
    calls, attached when there are any. *)
Definition translated_entry (random_base36 : nat -> string) (k : nat)
    (c : GeminiContent) : ChatMessage :=
  {| chat_role := mapped_role (role c);
     chat_content :=
       match texts_of (parts c), calls_of (parts c) with
       | [], _ :: _ => None
       | ts, _ => Some (join LF ts)
       end;
     chat_tool_calls :=
       match calls_of (parts c) with
       | [] => None
       | fcs => Some (synthesized_calls random_base36 k fcs)
       end |}.

(** The messages of a list of entries, the draws threaded from entry to
    entry. *)
Fixpoint translated_entries (random_base36 : nat -> string) (k : nat)
    (cs : list GeminiContent) : list ChatMessage :=
  match cs with
  | [] => []
  | c :: rest =>
      translated_entry random_base36 k c
      :: translated_entries random_base36
           (k + List.length (calls_of (parts c))) rest
  end.

(** The Gemini part of a function call. *)
Definition part_of_call (fc : GeminiFunctionCall) : GeminiPart :=
  FunctionCallPart (fc_name fc) (fc_args fc).



(** The tool-use blocks of a list of upstream tool calls, when every
    [arguments] string is JSON. *)
Fixpoint tool_use_blocks (tool_calls : list ToolCall) : option (list Block) :=
  match tool_calls with
  | [] => Some []
  | call :: rest =>
      match JSON_parse (fn_arguments (call_function call)),
            tool_use_blocks rest with
      | Some args, Some blocks =>
          Some (ToolUseBlock (call_id call) (fn_name (call_function call)) args
                :: blocks)
      | _, _ => None
      end
  end.

(** The credential of a Claude-shaped and of a Gemini-shaped call. *)
Definition claude_key (c : Context MessagesRequest) : option string :=
  extractApiKey (or_else (header c "Authorization") (header c "x-api-key")).

Definition gemini_key (c : Context GeminiRequest) : option string :=
  extractApiKey
    (or_else (header c "Authorization") (header c "x-goog-api-key")).

(** The upstream calls among the events of a run. *)
Fixpoint upstream_calls (events : list Event) : list ChatRequest :=
  match events with
  | [] => []
  | Upstream r :: rest => r :: upstream_calls rest
  | _ :: rest => upstream_calls rest
  end.

(** The translator calls among the events of a run. *)
Fixpoint translator_calls (events : list Event) : list string :=
  match events with
  | [] => []
  | Translate t :: rest => t :: translator_calls rest
  | _ :: rest => translator_calls rest
  end.

(** ** The listing and configuration endpoints *)

(** An entry of [GET /v1beta/models]. *)
Record GeminiModelInfo : Type := {
  gm_name : string;
  gm_displayName : string;
  gm_description : string;
  gm_inputTokenLimit : Z;
  gm_outputTokenLimit : Z;
  gm_supportedGenerationMethods : list string;
  gm_target_model : string
}.

(** An entry of [GET /v1/models]. *)
Record ClaudeModelInfo : Type := {
  cm_id : string;
  cm_object : string;
  cm_provider : string;
  cm_max_tokens : Z;
  cm_target_model : string
}.

Record ClaudeModelList : Type := {
  cl_object : string;
  cl_data : list ClaudeModelInfo
}.

Record CurrentConfig : Type := {
  target_model : string;
  target_provider : string;
  target_base_url : string;
  target_max_tokens : Z
}.

Record ConfigReport : Type := {
  current_config : CurrentConfig;
  environment_variables : list (string * string)
}.

Definition geminiModels : list string :=
  ["gemini-2.5-flash"; "gemini-1.5-pro"; "gemini-1.5-flash"; "gemini-1.0-pro"].

Definition claudeModels : list string :=
  ["claude-4.0"; "claude-3.5-sonnet"; "claude-3-sonnet"; "claude-3-haiku";
   "claude-3-opus"].

Section Listings.

Variable parseInt : string -> Z.

(** [app.get('/v1beta/models', ...)]: the [models] of the body. *)
Definition get_v1beta_models (e : Env) : list GeminiModelInfo :=
  let targetConfig := getTargetConfig parseInt e in
  map (fun model =>
         {| gm_name := "models/" ++ model;
            gm_displayName := model;
            gm_description :=
              model ++ " model proxied through " ++ cfg_provider targetConfig;
            gm_inputTokenLimit := cfg_maxTokens targetConfig;
            gm_outputTokenLimit := cfg_maxTokens targetConfig;
            gm_supportedGenerationMethods := ["generateContent"];
            gm_target_model := cfg_model targetConfig |})
      geminiModels.

(** [app.get('/v1/models', ...)]. *)
Definition get_v1_models (e : Env) : ClaudeModelList :=
  let targetConfig := getTargetConfig parseInt e in
  {| cl_object := "list";
     cl_data :=
       map (fun model =>
              {| cm_id := model;
                 cm_object := "model";
                 cm_provider := cfg_provider targetConfig;
                 cm_max_tokens := cfg_maxTokens targetConfig;
                 cm_target_model := cfg_model targetConfig |})
           claudeModels |}.

(** [app.get('/v1/config', ...)]. *)
Definition get_v1_config (e : Env) : ConfigReport :=
  let targetConfig := getTargetConfig parseInt e in
  {| current_config :=
       {| target_model := cfg_model targetConfig;
          target_provider := cfg_provider targetConfig;
          target_base_url := cfg_baseURL targetConfig;
          target_max_tokens := cfg_maxTokens targetConfig |};
     environment_variables :=
       [("TARGET_MODEL",
         "Target model to use (default: moonshotai/kimi-k2-instruct)");
        ("TARGET_PROVIDER", "Target provider name (default: groq)");
        ("TARGET_BASE_URL",
         "Target API base URL (default: https://api.groq.com/openai/v1)");
        ("TARGET_MAX_TOKENS", "Maximum tokens limit (default: 16384)")] |}.

End Listings.

(** ** Notions used to state what the translators keep and drop *)

(** [piece] occurs in [s]. *)
Definition contains (s piece : string) : Prop :=
  exists before after, s = before ++ piece ++ after.

(** A block without its identifiers. *)
Definition erase_ids (b : Block) : Block :=
  match b with
  | TextBlock t => TextBlock t
  | ToolUseBlock _ name input => ToolUseBlock "" name input
  | ToolResultBlock _ content => ToolResultBlock "" content
  end.

(** A part the Gemini request translator looks at: one with a non-empty
    text or with a function call. *)
Definition translatable (p : GeminiPart) : bool :=
  truthy (text p)
  || match functionCall p with Some _ => true | None => false end.

(** The number of function-call parts of a list of entries. *)
Fixpoint total_calls (cs : list GeminiContent) : nat :=
  match cs with
  | [] => 0
  | c :: rest => List.length (calls_of (parts c)) + total_calls rest
  end.

(** The function-call parts of a list of upstream tool calls, when every
    [arguments] string is JSON. *)
Fixpoint function_call_parts (tool_calls : list ToolCall)
    : option (list GeminiPart) :=
  match tool_calls with
  | [] => Some []
  | toolCall :: rest =>
      match JSON_parse (fn_arguments (call_function toolCall)),
            function_call_parts rest with
      | Some args, Some ps =>
          Some (FunctionCallPart (fn_name (call_function toolCall)) args :: ps)
      | _, _ => None
      end
  end.

(** A function-call part made of an upstream tool call: the name of the
    call, and the value its [arguments] string denotes. *)
Definition part_of_tool_call (tc : ToolCall) (p : GeminiPart) : Prop :=
  exists args,
    JSON_parse (fn_arguments (call_function tc)) = Some args
    /\ p = FunctionCallPart (fn_name (call_function tc)) args.

(** The count a Gemini response reports for a field of the upstream
    usage: the count when the usage is there and gives it, 0 otherwise. *)
Definition reported_count (u : option Usage) (field : Usage -> option Z)
    : Z :=
  match u with
  | Some x => match field x with Some n => n | None => 0%Z end
  | None => 0%Z
  end.

(** A tool call whose [arguments] are JSON, and one whose are not. *)
Definition parsable (tc : ToolCall) : Prop :=
  JSON_parse (fn_arguments (call_function tc)) <> None.

Definition unparsable (tc : ToolCall) : Prop :=
  JSON_parse (fn_arguments (call_function tc)) = None.

(** The generic failure bodies of the two handlers. *)
Definition claude_internal_error : HttpResponse :=
  {| http_status := 500; http_body := ErrorFlat "Internal server error" |}.

Definition gemini_internal_error : HttpResponse :=
  {| http_status := 500;
     http_body := ErrorNested 500 "Internal server error" "INTERNAL" |}.

(** A request without the parts the translator does not look at. *)
Definition strip_untranslatable (geminiRequest : GeminiRequest)
    : GeminiRequest :=
  {| contents :=
       map (fun c =>
              {| role := role c; parts := filter translatable (parts c) |})
           (contents geminiRequest);
     generationConfig := generationConfig geminiRequest;
     tools := tools geminiRequest |}.

(** The names of the function declarations of a list of tool groups, group
    after group. *)
Definition declared_names (groups : list GeminiTool) : list string :=
  flat_map (fun t => map fd_name (function_declarations t)) groups.

(** ** Sample requests and responses *)



(** An upstream answer with a text, a tool call and a usage that gives
    the prompt count alone, and its translation. *)
Definition tool_call_completion : Completion :=
  {| choices :=
       [{| ch_message :=
             {| rm_content := Some "Calling f";
                rm_tool_calls :=
                  Some [{| call_id := "call_1";
                           call_type := "function";
                           call_function :=
                             {| fn_name := "f";
                                fn_arguments :=
                                  "{" ++ quoted "x" ++ ":1}" |} |}] |};
           ch_finish_reason := Some "tool_calls" |}];
     usage :=
       Some {| prompt_tokens := Some 7%Z; completion_tokens := None;
               total_tokens := None |} |}.

Definition tool_call_response : GeminiResponse :=
  {| candidates :=
       [{| cand_content :=
             {| parts := [TextPart "Calling f";
                          FunctionCallPart "f" (JObj [("x", JNum 1)])];
                role := "model" |};
           finishReason := "STOP";
           index := 0 |}];
     usageMetadata :=
       {| promptTokenCount := 7; candidatesTokenCount := 0;
          totalTokenCount := 0 |};
     modelVersion := "gemini-1.5-pro" |}.

(** An environment that sets the target model and nothing else. *)
Definition model_only_env : Env :=
  {| TARGET_MODEL := Some "llama-3.3-70b-versatile"; TARGET_PROVIDER := None;
     TARGET_BASE_URL := Some ""; TARGET_MAX_TOKENS := None |}.

(** A Gemini request whose only part calls [f] with [{x: 1}]. *)
Definition call_f_part : GeminiPart :=
  FunctionCallPart "f" (JObj [("x", JNum 1)]).

Definition call_f_entry : GeminiContent :=
  {| role := "model"; parts := [call_f_part] |}.

Definition call_f_request : GeminiRequest :=
  {| contents := [call_f_entry]; generationConfig := None; tools := None |}.





(** A source of ids that always draws the same digits. *)
Definition constant_random (k : nat) : string := "0.4fzyo82mvyr".

(** [parseInt] on a string of decimal digits. *)
Definition decimal_parseInt (s : string) : Z :=
  Z.of_N (N.of_uint (fst (Json.read_uint s))).

Definition constant_uuid (k : nat) : string :=
  "123e4567-e89b-12d3-a456-426614174000".

Definition default_env : Env :=
  {| TARGET_MODEL := None; TARGET_PROVIDER := None;
     TARGET_BASE_URL := None; TARGET_MAX_TOKENS := None |}.

(** A Claude call with its key in the [x-api-key] header. *)
Definition claude_call (request : MessagesRequest) : Context MessagesRequest :=
  {| header := fun h => if (h =? "x-api-key")%string then Some "sk-1" else None;
     req_json := Return request;
     param_model := "";
     env := default_env |}.

(** A Gemini call with a bearer credential. *)
Definition gemini_call (request : GeminiRequest) : Context GeminiRequest :=
  {| header :=
       fun h => if (h =? "Authorization")%string then Some "Bearer sk-1"
                else None;
     req_json := Return request;
     param_model := "gemini-1.5-pro";
     env := default_env |}.

Definition hello_request (max_tokens : option Z) : MessagesRequest :=
  {| req_model := "claude-3-haiku";
     req_messages :=
       [{| msg_role := "user"; msg_content := ContentString "hi" |}];
     req_max_tokens := max_tokens;
     req_temperature := None;
     req_tools := None;
     req_tool_choice := None |}.

(** An upstream that answers ["Hello"] with an empty [tool_calls] array. *)
Definition empty_tool_calls_upstream (r : ChatRequest) : outcome Completion :=
  Return
    {| choices :=
         [{| ch_message :=
               {| rm_content := Some "Hello"; rm_tool_calls := Some [] |};
             ch_finish_reason := Some "stop" |}];
       usage := None |}.

(** A Gemini request for the given number of output tokens. *)
Definition output_tokens_request (n : Z) : GeminiRequest :=
  {| contents := [{| role := "user"; parts := [TextPart "hi"] |}];
     generationConfig :=
       Some {| temperature := None; maxOutputTokens := Some n;
               topP := None; topK := None |};
     tools := None |}.

(** An entry with an empty text part between two text parts. *)
Definition empty_text_entry : GeminiContent :=
  {| role := "user"; parts := [TextPart "a"; TextPart ""; TextPart "b"] |}.

Definition empty_text_request : GeminiRequest :=
  {| contents := [empty_text_entry]; generationConfig := None;
     tools := None |}.

Definition zero_tokens_request : GeminiRequest :=
  {| contents := [{| role := "user"; parts := [TextPart "hi"] |}];
     generationConfig :=
       Some {| temperature := None; maxOutputTokens := Some 0%Z;
               topP := None; topK := None |};
     tools := None |}.

(** An upstream that fails. *)
Definition failing_upstream (r : ChatRequest) : outcome Completion :=
  Throw RequestError.

(** A tool result handed back by a Claude client. *)
Definition ok_result_block : Block :=
  ToolResultBlock "t1" (JObj [("ok", JBool true)]).

Definition ok_result_blocks : list Block :=
  [TextBlock "done"; ok_result_block; TextBlock "next"].

(** Two entries with the same texts and calls, interleaved differently. *)
Definition interleaved_entry : GeminiContent :=
  {| role := "model";
     parts := [TextPart "a"; call_f_part; TextPart "b"] |}.

Definition bucketed_entry : GeminiContent :=
  {| role := "model";
     parts := [TextPart "a"; TextPart "b"; call_f_part] |}.

(** A part that carries a text and a function call at once. *)
Definition text_and_call_part : GeminiPart :=
  {| text := Some "hi"; inlineData := None;
     functionCall := Some {| fc_name := "f"; fc_args := JNull |};
     functionResponse := None |}.

(** An upstream whose tool call has arguments that are no JSON. *)
Definition malformed_completion : Completion :=
  {| choices :=
       [{| ch_message :=
             {| rm_content := None;
                rm_tool_calls :=
                  Some [{| call_id := "c1"; call_type := "function";
                           call_function :=
                             {| fn_name := "get_weather";
                                fn_arguments := "{location:" |} |}] |};
           ch_finish_reason := Some "tool_calls" |}];
     usage := None |}.

Definition malformed_upstream (r : ChatRequest) : outcome Completion :=
  Return malformed_completion.

(** An upstream that answers ["Hello"] and reports no usage. *)
Definition hello_choice : Choice :=
  {| ch_message := {| rm_content := Some "Hello"; rm_tool_calls := None |};
     ch_finish_reason := Some "stop" |}.

Definition hello_completion : Completion :=
  {| choices := [hello_choice]; usage := None |}.

Definition hello_upstream (r : ChatRequest) : outcome Completion :=
  Return hello_completion.

(** Calls with a credential and a body that is no JSON. *)
Definition unreadable_claude_call : Context MessagesRequest :=
  {| header := fun h => if (h =? "x-api-key")%string then Some "sk-1" else None;
     req_json := Throw SyntaxError;
     param_model := "";
     env := default_env |}.

Definition unreadable_gemini_call : Context GeminiRequest :=
  {| header :=
       fun h => if (h =? "x-goog-api-key")%string then Some "sk-1" else None;
     req_json := Throw SyntaxError;
     param_model := "gemini-1.5-pro";
     env := default_env |}.

(** ** Measures and shapes used to reason about the JSON parser *)

Module JsonShape.
Import Json.

(** What may follow a printed number: anything but a digit. *)
Definition no_digit_head (s : string) : Prop :=
  match s with
  | EmptyString => True
  | String c _ => digit_of c = None
  end.

(** The recursion depth the parser needs for a value. *)
Fixpoint size (v : json) : nat :=
  match v with
  | JArr items =>
      S ((fix sizes (l : list json) : nat :=
            match l with
            | [] => 0
            | x :: l' => S (size x + sizes l')
            end) items)
  | JObj members =>
      S ((fix sizes (l : list (string * json)) : nat :=
            match l with
            | [] => 0
            | kv :: l' => S (size (snd kv) + sizes l')
            end) members)
  | _ => 1
  end.

Definition sizes (l : list json) : nat :=
  (fix sizes (l : list json) : nat :=
     match l with
     | [] => 0
     | x :: l' => S (size x + sizes l')
     end) l.

Definition member_sizes (l : list (string * json)) : nat :=
  (fix sizes (l : list (string * json)) : nat :=
     match l with
     | [] => 0
     | kv :: l' => S (size (snd kv) + sizes l')
     end) l.

Definition elements (l : list json) : string :=
  (fix elements (l : list json) : string :=
     match l with
     | [] => ""
     | [x] => stringify x
     | x :: l' => stringify x ++ "," ++ elements l'
     end) l.

Definition props (l : list (string * json)) : string :=
  (fix props (l : list (string * json)) : string :=
     match l with
     | [] => ""
     | [(k, x)] => QuoteJSONString k ++ ":" ++ stringify x
     | (k, x) :: l' =>
         QuoteJSONString k ++ ":" ++ stringify x ++ "," ++ props l'
     end) l.

(** The first character of a printed value starts a value: it is no
    white space and closes neither an array nor an object. *)
Definition value_head (s : string) : Prop :=
  exists c t, s = String c t /\ is_ws c = false
              /\ (c =? "]")%char = false /\ (c =? "}")%char = false.

End JsonShape.

(** * Properties *)

(** ** [JSON.parse] reads back what [JSON.stringify] prints *)

Module JsonFacts.
Import Json JsonShape.

Lemma append_assoc (a b c : string) : (a ++ b) ++ c = a ++ (b ++ c).
Proof.
  induction a as [|x a IH]; simpl; [reflexivity | now rewrite IH].
Qed.

Lemma append_nil_r (s : string) : s ++ "" = s.
Proof.
  induction s as [|x s IH]; simpl; [reflexivity | now rewrite IH].
Qed.

Lemma length_append (a b : string) :
  String.length (a ++ b) = String.length a + String.length b.
Proof.
  induction a as [|x a IH]; simpl; [reflexivity | now rewrite IH].
Qed.

Lemma read_uint_no_digit (rest : string) :
  no_digit_head rest -> read_uint rest = (Decimal.Nil, rest).
Proof.
  destruct rest as [|c rest]; simpl; intros H; [reflexivity|].
  now rewrite H.
Qed.

Lemma read_uint_print (u : Decimal.uint) (rest : string) :
  no_digit_head rest -> read_uint (string_of_uint u ++ rest) = (u, rest).
Proof.
  intros H; induction u; simpl;
    [now apply read_uint_no_digit | rewrite IHu; reflexivity ..].
Qed.

Lemma canonical_to_uint (n : N) : canonical (N.to_uint n) = true.
Proof.
  unfold canonical. apply Decimal.internal_uint_dec_lb.
  pose proof (DecimalN.Unsigned.to_of (N.to_uint n)) as H.
  rewrite DecimalN.Unsigned.of_to in H. now symmetry.
Qed.

Lemma read_N_print (n : N) (rest : string) :
  no_digit_head rest -> read_N (string_of_N n ++ rest) = Some (n, rest).
Proof.
  intros H. unfold read_N, string_of_N.
  rewrite (read_uint_print _ _ H), canonical_to_uint.
  now rewrite DecimalN.Unsigned.of_to.
Qed.

(** The first character of a printed digit string. *)
Lemma string_of_uint_head (u : Decimal.uint) :
  u <> Decimal.Nil ->
  exists c s, string_of_uint u = String c s /\ digit_of c <> None.
Proof.
  destruct u; intros H; [congruence | ..]; simpl;
    eexists; eexists; (split; [reflexivity | discriminate]).
Qed.

Lemma string_of_N_head (n : N) :
  exists c s, string_of_N n = String c s /\ digit_of c <> None.
Proof.
  apply string_of_uint_head. destruct n as [|p]; simpl.
  - discriminate.
  - apply DecimalPos.Unsigned.to_uint_nonnil.
Qed.

(** A character that is told apart from the digits by evaluation. *)
Ltac not_this_char c :=
  match goal with
  | |- (c =? ?k)%char = false =>
      let E := fresh "E" in
      destruct (c =? k)%char eqn:E; [|reflexivity];
      apply Ascii.eqb_eq in E; subst c;
      repeat match goal with
             | H : _ <> _ |- _ => try (exfalso; apply H; reflexivity)
             | H : _ = _ |- _ => try discriminate H
             end
  end.

Lemma digit_not_minus (c : ascii) :
  digit_of c <> None -> (c =? "-")%char = false.
Proof. intros H. not_this_char c. Qed.

Lemma parse_int_print (z : Z) (rest : string) :
  no_digit_head rest ->
  parse_int (string_of_Z z ++ rest) = Some (JNum z, rest).
Proof.
  intros H. destruct z as [|p|p].
  - change (string_of_Z 0) with (string_of_N 0).
    change (parse_int (string_of_N 0 ++ rest))
      with (match read_N (string_of_N 0 ++ rest) with
            | Some (n, r) => Some (JNum (Z.of_N n), r)
            | None => None
            end).
    now rewrite (read_N_print _ _ H).
  - unfold string_of_Z.
    destruct (string_of_N_head (N.pos p)) as (c & s & E & D).
    pose proof (read_N_print (N.pos p) rest H) as R.
    rewrite E in *. simpl. rewrite (digit_not_minus c D).
    simpl in R. now rewrite R.
  - simpl. now rewrite (read_N_print _ _ H).
Qed.

Lemma parse_quoted_char (c : ascii) (tail : string) :
  parse_string_body (quote_char c ++ tail)
  = match parse_string_body tail with
    | Some (t, r) => Some (String c t, r)
    | None => None
    end.
Proof.
  destruct c as [[] [] [] [] [] [] [] []]; reflexivity.
Qed.

Lemma parse_string_body_print (s rest : string) :
  parse_string_body (quote_body s ++ String DQ rest) = Some (s, rest).
Proof.
  induction s as [|c s IH]; simpl; [reflexivity|].
  now rewrite append_assoc, parse_quoted_char, IH.
Qed.

Lemma stringify_arr (items : list json) :
  stringify (JArr items) = "[" ++ elements items ++ "]".
Proof. reflexivity. Qed.

Lemma stringify_obj (members : list (string * json)) :
  stringify (JObj members) = "{" ++ props members ++ "}".
Proof. reflexivity. Qed.

Lemma elements_cons (x y : json) (l : list json) :
  elements (x :: y :: l) = stringify x ++ "," ++ elements (y :: l).
Proof. reflexivity. Qed.

Lemma props_cons (k : string) (x : json) (kv : string * json)
    (l : list (string * json)) :
  props ((k, x) :: kv :: l)
  = QuoteJSONString k ++ ":" ++ stringify x ++ "," ++ props (kv :: l).
Proof. reflexivity. Qed.

Lemma number_head (z : Z) :
  exists c t, string_of_Z z = String c t
              /\ ((c =? "-")%char = true \/ digit_of c <> None).
Proof.
  destruct z as [|p|p].
  - exists "0"%char, "". split; [reflexivity | right; discriminate].
  - destruct (string_of_N_head (N.pos p)) as (c & t & E & D).
    exists c, t. split; [exact E | now right].
  - eexists; eexists. split; [reflexivity | now left].
Qed.

Lemma is_ws_false (c : ascii) :
  (c =? " ")%char = false -> (c =? ascii_of_nat 9)%char = false ->
  (c =? ascii_of_nat 10)%char = false ->
  (c =? ascii_of_nat 13)%char = false -> is_ws c = false.
Proof. unfold is_ws. now intros -> -> -> ->. Qed.

Lemma number_start_other (c k : ascii) :
  (c =? "-")%char = true \/ digit_of c <> None ->
  (k =? "-")%char = false -> digit_of k = None ->
  (c =? k)%char = false.
Proof.
  intros [H|H] Hm Hd.
  - apply Ascii.eqb_eq in H; subst c.
    now rewrite Ascii.eqb_sym.
  - destruct (c =? k)%char eqn:E; [|reflexivity].
    apply Ascii.eqb_eq in E; subst c. contradiction.
Qed.

Lemma stringify_head (v : json) : value_head (stringify v).
Proof.
  destruct v as [|[]|z|s|items|members| |k];
    try (eexists; eexists; repeat split; reflexivity).
  destruct (number_head z) as (c & t & E & H).
  exists c, t. split; [exact E|].
  repeat split;
    [apply is_ws_false|..]; now apply (number_start_other c _ H).
Qed.

Lemma skip_ws_head (s : string) : value_head s -> skip_ws s = s.
Proof.
  intros (c & t & -> & W & _). simpl. now rewrite W.
Qed.

Lemma skip_ws_head_app (s rest : string) :
  value_head s -> value_head (s ++ rest).
Proof.
  intros (c & t & -> & H). exists c, (t ++ rest). now split.
Qed.

Lemma skip_ws_keep (c : ascii) (s : string) :
  is_ws c = false -> skip_ws (String c s) = String c s.
Proof. intros H. simpl. now rewrite H. Qed.

(** The parser looking at a punctuation mark of the printer. *)
Ltac punctuation :=
  cbn [append];
  rewrite ?skip_ws_keep by reflexivity;
  cbn [Ascii.eqb Bool.eqb andb].

(** One element of an array, followed by the rest of the array. *)
Lemma parse_elements_print (items : list json) :
  Forall (fun v => forall fuel rest,
              size v <= fuel -> no_digit_head rest ->
              parse_value fuel (stringify v ++ rest)
              = Some (reread v, rest))
         items ->
  items <> [] ->
  forall fuel rest,
    sizes items <= fuel ->
    parse_elements fuel (elements items ++ String "]" rest)
    = Some (map reread items, rest).
Proof.
  induction 1 as [|x l Hx Hl IH]; intros Hne fuel rest Hfuel;
    [congruence|].
  destruct fuel as [|fuel]; [simpl in Hfuel; lia|].
  change (sizes (x :: l)) with (S (size x + sizes l)) in Hfuel.
  destruct l as [|y l].
  - change (elements [x]) with (stringify x).
    cbn [parse_elements].
    rewrite Hx by (simpl; trivial; lia).
    reflexivity.
  - rewrite elements_cons, !append_assoc.
    cbn [parse_elements].
    rewrite Hx by (simpl; trivial; lia).
    punctuation.
    rewrite IH by (try discriminate; lia).
    reflexivity.
Qed.

Lemma parse_members_print (members : list (string * json)) :
  Forall (fun kv => forall fuel rest,
              size (snd kv) <= fuel -> no_digit_head rest ->
              parse_value fuel (stringify (snd kv) ++ rest)
              = Some (reread (snd kv), rest))
         members ->
  members <> [] ->
  forall fuel rest,
    member_sizes members <= fuel ->
    parse_members fuel (props members ++ String "}" rest)
    = Some (map (fun kv => (fst kv, reread (snd kv))) members, rest).
Proof.
  induction 1 as [|[k x] l Hx Hl IH]; intros Hne fuel rest Hfuel;
    [congruence|].
  destruct fuel as [|fuel]; [simpl in Hfuel; lia|].
  change (member_sizes ((k, x) :: l))
    with (S (size x + member_sizes l)) in Hfuel.
  simpl snd in Hx.
  destruct l as [|kv l].
  - change (props [(k, x)]) with (QuoteJSONString k ++ ":" ++ stringify x).
    unfold QuoteJSONString. rewrite !append_assoc.
    cbn [parse_members]. punctuation.
    rewrite append_assoc.
    cbn [append].
    rewrite parse_string_body_print.
    punctuation.
    rewrite Hx by (simpl; trivial; lia).
    reflexivity.
  - rewrite props_cons. unfold QuoteJSONString. rewrite !append_assoc.
    cbn [parse_members]. punctuation.
    rewrite !append_assoc.
    cbn [append].
    rewrite parse_string_body_print.
    punctuation.
    rewrite Hx by (simpl; trivial; lia).
    punctuation.
    rewrite IH by (try discriminate; lia).
    reflexivity.
Qed.

Lemma elements_head (x : json) (l : list json) :
  value_head (elements (x :: l)).
Proof.
  destruct l as [|y l].
  - apply stringify_head.
  - rewrite elements_cons. apply skip_ws_head_app, stringify_head.
Qed.

(** The parser at the first character of a printed number. *)
Lemma parse_value_number (fuel : nat) (z : Z) (rest : string) :
  parse_value (S fuel) (string_of_Z z ++ rest)
  = parse_int (string_of_Z z ++ rest).
Proof.
  destruct (number_head z) as (c & t & E & H). rewrite E.
  cbn [parse_value append].
  rewrite skip_ws_keep
    by (apply is_ws_false; now apply (number_start_other c _ H)).
  rewrite !(number_start_other c _ H) by reflexivity.
  reflexivity.
Qed.

(** Whatever follows it that is no digit, a printed value is parsed back
    to the value [reread] gives, and the parser stops right behind it. *)
Lemma parse_value_print (v : json) :
  forall fuel rest,
    size v <= fuel -> no_digit_head rest ->
    parse_value fuel (stringify v ++ rest) = Some (reread v, rest).
Proof.
  induction v as [|b|z|s|items IH|members IH| |k] using json_ind;
    intros fuel rest Hfuel Hrest;
    (destruct fuel as [|fuel]; [simpl in Hfuel; lia|]);
    [| | | | | |
     exact (eq_trans (parse_value_number fuel 0 rest)
                     (parse_int_print 0 rest Hrest))
     | reflexivity].
  - reflexivity.
  - destruct b; reflexivity.
  - change (stringify (JNum z)) with (string_of_Z z).
    now rewrite parse_value_number, parse_int_print.
  - change (stringify (JStr s)) with (QuoteJSONString s).
    unfold QuoteJSONString. cbn [append parse_value].
    rewrite skip_ws_keep by reflexivity.
    cbn [Ascii.eqb Bool.eqb andb].
    rewrite append_assoc. cbn [append].
    now rewrite parse_string_body_print.
  - rewrite stringify_arr.
    cbn [append parse_value].
    rewrite skip_ws_keep by reflexivity.
    cbn [Ascii.eqb Bool.eqb andb].
    destruct items as [|x l]; [reflexivity|].
    rewrite append_assoc. cbn [append].
    pose proof (skip_ws_head_app _ (String "]" rest) (elements_head x l))
      as Hh.
    rewrite (skip_ws_head _ Hh).
    destruct Hh as (c & t & E & _ & Hc & _).
    assert (Hp : parse_elements fuel
                   (elements (x :: l) ++ String "]" rest)
                 = Some (map reread (x :: l), rest)).
    { apply parse_elements_print; trivial; try discriminate.
      change (size (JArr (x :: l))) with (S (sizes (x :: l))) in Hfuel.
      lia. }
    rewrite E in *. rewrite Hc, Hp. reflexivity.
  - rewrite stringify_obj.
    cbn [append parse_value].
    rewrite skip_ws_keep by reflexivity.
    cbn [Ascii.eqb Bool.eqb andb].
    destruct members as [|[k x] l]; [reflexivity|].
    rewrite append_assoc. cbn [append].
    assert (Hh : exists t, props ((k, x) :: l) = String DQ t).
    { destruct l as [|kv l]; [|rewrite props_cons];
        eexists; reflexivity. }
    destruct Hh as (t & Ht).
    assert (Hp : parse_members fuel
                   (props ((k, x) :: l) ++ String "}" rest)
                 = Some (map (fun kv => (fst kv, reread (snd kv)))
                              ((k, x) :: l), rest)).
    { apply parse_members_print; trivial; try discriminate.
      change (size (JObj ((k, x) :: l)))
        with (S (member_sizes ((k, x) :: l))) in Hfuel.
      lia. }
    rewrite Ht in *. cbn [append] in *.
    rewrite skip_ws_keep by reflexivity.
    cbn [Ascii.eqb Bool.eqb andb].
    rewrite Hp. reflexivity.
Qed.

Lemma sizes_le_length (items : list json) :
  Forall (fun v => size v <= String.length (stringify v)) items ->
  sizes items <= S (String.length (elements items)).
Proof.
  induction 1 as [|x l Hx Hl IH]; [simpl; lia|].
  change (sizes (x :: l)) with (S (size x + sizes l)).
  destruct l as [|y l].
  - change (elements [x]) with (stringify x). simpl. lia.
  - rewrite elements_cons, !length_append.
    change (String.length ",") with 1. lia.
Qed.

Lemma member_sizes_le_length (members : list (string * json)) :
  Forall (fun kv => size (snd kv) <= String.length (stringify (snd kv)))
         members ->
  member_sizes members <= S (String.length (props members)).
Proof.
  induction 1 as [|[k x] l Hx Hl IH]; [simpl; lia|].
  change (member_sizes ((k, x) :: l)) with (S (size x + member_sizes l)).
  simpl snd in Hx.
  destruct l as [|kv l].
  - change (props [(k, x)]) with (QuoteJSONString k ++ ":" ++ stringify x).
    rewrite !length_append. simpl. lia.
  - rewrite props_cons, !length_append.
    change (String.length ",") with 1. lia.
Qed.

Lemma size_le_length (v : json) : size v <= String.length (stringify v).
Proof.
  induction v as [|b|z|s|items IH|members IH| |k] using json_ind;
    [| | | | | | simpl; lia | simpl; lia].
  - simpl. lia.
  - destruct b; simpl; lia.
  - destruct (number_head z) as (c & t & E & _).
    change (stringify (JNum z)) with (string_of_Z z). rewrite E.
    simpl. lia.
  - simpl. lia.
  - rewrite stringify_arr, !length_append.
    change (size (JArr items)) with (S (sizes items)).
    pose proof (sizes_le_length items IH).
    change (String.length "[") with 1.
    change (String.length "]") with 1. lia.
  - rewrite stringify_obj, !length_append.
    change (size (JObj members)) with (S (member_sizes members)).
    pose proof (member_sizes_le_length members IH).
    change (String.length "{") with 1.
    change (String.length "}") with 1. lia.
Qed.

(** [JSON.parse(JSON.stringify(v))] is [reread v]. *)
Lemma parse_stringify (v : json) : parse (stringify v) = Some (reread v).
Proof.
  unfold parse.
  rewrite <- (append_nil_r (stringify v)) at 2.
  rewrite parse_value_print.
  - reflexivity.
  - pose proof (size_le_length v). lia.
  - exact I.
Qed.

(** A value is read back as itself exactly when it holds neither a
    negative zero nor a non-finite number. *)
Lemma reread_plain (v : json) : reread v = v <-> plain v = true.
Proof.
  induction v as [|b|z|s|items IH|members IH| |k] using json_ind;
    try (simpl; split; [reflexivity | reflexivity]);
    try (simpl; split; discriminate).
  - cbn [reread plain]. split.
    + intros H. injection H as H. induction IH as [|x l Hx Hl IHl];
        [reflexivity|].
      cbn [map forallb] in *. injection H as H1 H2.
      apply andb_true_intro. split; [now apply Hx | now apply IHl].
    + intros H. f_equal. induction IH as [|x l Hx Hl IHl];
        [reflexivity|].
      cbn [map forallb] in *. apply andb_prop in H as [H1 H2].
      f_equal; [now apply Hx | now apply IHl].
  - cbn [reread plain]. split.
    + intros H. injection H as H. induction IH as [|[k x] l Hx Hl IHl];
        [reflexivity|].
      cbn [map forallb fst snd] in *. injection H as H1 H2.
      apply andb_true_intro. split; [now apply Hx | now apply IHl].
    + intros H. f_equal. induction IH as [|[k x] l Hx Hl IHl];
        [reflexivity|].
      cbn [map forallb fst snd] in *. apply andb_prop in H as [H1 H2].
      f_equal; [f_equal; now apply Hx | now apply IHl].
Qed.

(** [JSON.parse(JSON.stringify(v))] is [v] exactly for such values. *)
Lemma parse_stringify_plain (v : json) :
  parse (stringify v) = Some v <-> plain v = true.
Proof.
  rewrite parse_stringify, <- reread_plain.
  split; [now intros [= ->] | now intros ->].
Qed.

Example stringify_nested :
  JSON_stringify
    (JObj [("location", JStr "NYC"); ("days", JArr [JNum 1; JNum (-2)]);
           ("ok", JBool true); ("none", JNull)])
  = "{" ++ quoted "location" ++ ":" ++ quoted "NYC" ++ ","
    ++ quoted "days" ++ ":[1,-2]," ++ quoted "ok" ++ ":true,"
    ++ quoted "none" ++ ":null}".
Proof. reflexivity. Qed.

Example stringify_escapes :
  JSON_stringify (JStr (String "a" (String (ascii_of_nat 10)
                          (String DQ (String (ascii_of_nat 1) "\")))))
  = quoted ("a\n\" ++ String DQ "\u0001\\").
Proof. reflexivity. Qed.

Example parse_spaced :
  JSON_parse ("{ " ++ quoted "location" ++ " : " ++ quoted "NYC" ++ ", "
              ++ quoted "n" ++ " : [ 1 , 20 ] }")
  = Some (JObj [("location", JStr "NYC"); ("n", JArr [JNum 1; JNum 20])]).
Proof. reflexivity. Qed.

Example parse_escapes :
  JSON_parse (quoted ("a\nA\" ++ String DQ "A"))
  = Some (JStr (String "a" (String (ascii_of_nat 10)
                              (String "A" (String DQ "A"))))).
Proof. reflexivity. Qed.

Example parse_malformed : JSON_parse ("{" ++ quoted "x" ++ ":") = None.
Proof. reflexivity. Qed.

Example parse_leading_zero : JSON_parse "01" = None.
Proof. reflexivity. Qed.

Example parse_trailing_text : JSON_parse "1 2" = None.
Proof. reflexivity. Qed.

End JsonFacts.

(** ** The credential extractor *)

Lemma startsWith_append (p rest : string) : startsWith (p ++ rest) p = true.
Proof.
  induction p as [|a p IH]; simpl; [reflexivity|].
  now rewrite Ascii.eqb_refl, IH.
Qed.

Lemma startsWith_split (s p : string) :
  startsWith s p = true -> s = p ++ slice (String.length p) s.
Proof.
  revert s; induction p as [|a p IH]; intros s H; simpl in *; [reflexivity|].
  destruct s as [|b s]; [discriminate|].
  apply andb_prop in H as [Hab Hs].
  apply Ascii.eqb_eq in Hab; subst b.
  simpl. f_equal. now apply IH.
Qed.

Lemma slice_append (p rest : string) : slice (String.length p) (p ++ rest) = rest.
Proof. induction p as [|a p IH]; simpl; [reflexivity | exact IH]. Qed.

(** C8, as stated, fails on the empty header value: the extractor answers
    with an absent result, not with the empty string. *)
Lemma extractApiKey_empty_is_absent :
  extractApiKey (Some "") = None /\ extractApiKey (Some "") <> Some "".
Proof. split; [reflexivity | discriminate]. Qed.

(** C8 (amended): an absent or empty header value yields an absent result;
    a value that begins with the case-sensitive prefix ["Bearer "] yields
    the remainder of the string behind that prefix; every other non-empty
    value is returned verbatim. *)
Theorem extractApiKey_spec :
  extractApiKey None = None
  /\ extractApiKey (Some "") = None
  /\ (forall rest, extractApiKey (Some ("Bearer " ++ rest)) = Some rest)
  /\ (forall v, v <> "" -> (forall rest, v <> "Bearer " ++ rest) ->
                extractApiKey (Some v) = Some v).
Proof.
  repeat split.
  intros v Hne Hpre. unfold extractApiKey.
  destruct v as [|c v]; [congruence|]. simpl truthy. cbv iota beta.
  simpl negb. cbv iota.
  destruct (startsWith (String c v) "Bearer ") eqn:E; [|reflexivity].
  apply startsWith_split in E. exfalso. exact (Hpre _ E).
Qed.

Example extractApiKey_bearer : extractApiKey (Some "Bearer sk-123") = Some "sk-123".
Proof. reflexivity. Qed.

Example extractApiKey_lowercase :
  extractApiKey (Some "bearer sk-123") = Some "bearer sk-123".
Proof. reflexivity. Qed.

Example extractApiKey_raw : extractApiKey (Some "AIzaSy") = Some "AIzaSy".
Proof. reflexivity. Qed.

(** ** Claude request translation *)

Lemma fold_push_block (blocks : list Block) (parts : list string) :
  fold_left push_block blocks parts
  = (parts ++ map flatten_block blocks)%list.
Proof.
  revert parts; induction blocks as [|b blocks IH]; intros parts; simpl.
  - now rewrite List.app_nil_r.
  - rewrite IH. destruct b; unfold push_block, push;
      now rewrite <- List.app_assoc.
Qed.

Lemma convertMessage_flattened (m : Message) :
  convertMessage m = flattened_message m.
Proof.
  unfold convertMessage, flattened_message.
  destruct (msg_content m) as [s|blocks]; [reflexivity|].
  now rewrite fold_push_block.
Qed.

(** C1: a message whose content is a block sequence is flattened to the
    newline-joined pieces of its blocks, in order: a text block gives its
    text, a tool use the marker ["[Tool Use: <name>] "] followed by the JSON
    serialization of its input, a tool result the JSON serialization of its
    content between [<tool_result>] and [</tool_result>]; a message whose
    content is a plain string keeps that string; the role is copied in both
    cases. *)
Theorem convertMessages_flattens (messages : list Message) :
  convertMessages messages = map flattened_message messages.
Proof.
  unfold convertMessages. apply map_ext. exact convertMessage_flattened.
Qed.

Example convertMessages_tool_result :
  convertMessages
    [{| msg_role := "user";
        msg_content :=
          ContentBlocks
            [TextBlock "done";
             ToolUseBlock "t0" "get_weather" (JObj [("location", JStr "NYC")]);
             ToolResultBlock "t1" (JObj [("ok", JBool true)])] |};
     {| msg_role := "assistant"; msg_content := ContentString "hi" |}]
  = [{| chat_role := "user";
        chat_content :=
          Some ("done" ++ LF
                ++ "[Tool Use: get_weather] {" ++ quoted "location" ++ ":"
                ++ quoted "NYC" ++ "}" ++ LF
                ++ "<tool_result>{" ++ quoted "ok" ++ ":true}</tool_result>");
        chat_tool_calls := None |};
     {| chat_role := "assistant"; chat_content := Some "hi";
        chat_tool_calls := None |}].
Proof. reflexivity. Qed.

(** ** Claude response translation *)

Lemma push_tool_calls_blocks (tool_calls : list ToolCall)
    (content : list Block) :
  push_tool_calls tool_calls content
  = match tool_use_blocks tool_calls with
    | Some blocks => Return (content ++ blocks)%list
    | None => Throw SyntaxError
    end.
Proof.
  revert content; induction tool_calls as [|call rest IH]; intros content.
  - simpl. now rewrite List.app_nil_r.
  - simpl.
    destruct (JSON_parse (fn_arguments (call_function call))) as [args|];
      [|reflexivity].
    rewrite IH. destruct (tool_use_blocks rest) as [blocks|]; [|reflexivity].
    unfold push. now rewrite <- List.app_assoc.
Qed.

(** With tool calls whose arguments all parse, the response holds one
    tool-use block per call, in order, and stops for ["tool_use"]. *)
Lemma responseContent_tool_calls (content : option string)
    (tool_calls : list ToolCall) (blocks : list Block) :
  tool_use_blocks tool_calls = Some blocks ->
  responseContent {| rm_content := content; rm_tool_calls := Some tool_calls |}
  = Return (blocks, "tool_use").
Proof.
  intros H. unfold responseContent, convertToolCallsToAnthropic. simpl.
  now rewrite push_tool_calls_blocks, H.
Qed.

(** An argument string that is no JSON makes the translation throw. *)
Lemma responseContent_malformed (content : option string)
    (tool_calls : list ToolCall) :
  tool_use_blocks tool_calls = None ->
  responseContent {| rm_content := content; rm_tool_calls := Some tool_calls |}
  = Throw SyntaxError.
Proof.
  intros H. unfold responseContent, convertToolCallsToAnthropic. simpl.
  now rewrite push_tool_calls_blocks, H.
Qed.

(** Without the [tool_calls] property, the response is one text block with
    the content, or the empty string, and stops for ["end_turn"]. *)
Lemma responseContent_absent (content : option string) :
  responseContent {| rm_content := content; rm_tool_calls := None |}
  = Return ([TextBlock (or_default content "")], "end_turn").
Proof. reflexivity. Qed.

Example responseContent_get_weather :
  responseContent
    {| rm_content := None;
       rm_tool_calls :=
         Some [{| call_id := "c1"; call_type := "function";
                  call_function :=
                    {| fn_name := "get_weather";
                       fn_arguments :=
                         "{" ++ quoted "location" ++ ":" ++ quoted "NYC" ++ "}" |} |}] |}
  = Return ([ToolUseBlock "c1" "get_weather" (JObj [("location", JStr "NYC")])],
            "tool_use").
Proof. reflexivity. Qed.

(** C2 at an empty [tool_calls] array: the claim asks for one text block
    with the message content and the stop reason ["end_turn"]; the handler
    takes the tool branch, drops the content and answers with no block at
    all and the stop reason ["tool_use"]. *)
Theorem responseContent_empty_tool_calls :
  responseContent {| rm_content := Some "Hello"; rm_tool_calls := Some [] |}
  = Return ([], "tool_use")
  /\ responseContent {| rm_content := Some "Hello"; rm_tool_calls := Some [] |}
     <> Return ([TextBlock "Hello"], "end_turn").
Proof. split; [reflexivity | discriminate]. Qed.

(** ** Gemini response translation *)




Example finishReason_stop_and_tool_calls :
  forall message usage_ model finish,
    In finish [Some "stop"; Some "tool_calls"; Some "content_filter"; None] ->
    rm_tool_calls message = None ->
    exists g cand,
      convertOpenAIToGemini
        {| choices := [{| ch_message := message; ch_finish_reason := finish |}];
           usage := usage_ |} model = Return g
      /\ candidates g = [cand] /\ finishReason cand = "STOP".
Proof.
  intros message usage_ model finish Hin Hnone.
  unfold convertOpenAIToGemini. simpl. rewrite Hnone.
  eexists; eexists. split; [reflexivity|]. split; [reflexivity|].
  simpl in Hin. simpl.
  destruct Hin as [<-|[<-|[<-|[<-|[]]]]]; reflexivity.
Qed.

(** ** Gemini request translation *)

Section GeminiRequestFacts.

Variable random_base36 : nat -> string.

Lemma fold_push_part (ps : list GeminiPart) (textParts : list string)
    (toolCalls : list ToolCall) (k : nat) :
  fold_left (push_part random_base36) ps (textParts, toolCalls, k)
  = ((textParts ++ texts_of ps)%list,
     (toolCalls ++ synthesized_calls random_base36 k (calls_of ps))%list,
     k + List.length (calls_of ps)).
Proof.
  revert textParts toolCalls k.
  induction ps as [|p ps IH]; intros textParts toolCalls k.
  - simpl. now rewrite !List.app_nil_r, Nat.add_0_r.
  - cbn [fold_left texts_of calls_of]. unfold push_part at 2.
    destruct (text p) as [[|c t]|].
    + destruct (functionCall p) as [fc|]; rewrite IH; unfold push; simpl.
      * now rewrite <- List.app_assoc, Nat.add_succ_r.
      * reflexivity.
    + rewrite IH. unfold push. now rewrite <- List.app_assoc.
    + destruct (functionCall p) as [fc|]; rewrite IH; unfold push; simpl.
      * now rewrite <- List.app_assoc, Nat.add_succ_r.
      * reflexivity.
Qed.

Lemma join_nonempty (c : ascii) (t : string) (rest : list string) :
  exists u, join LF (String c t :: rest) = String c u.
Proof.
  unfold join. destruct rest as [|x rest]; simpl; eexists; reflexivity.
Qed.

Lemma texts_of_head (ps : list GeminiPart) :
  texts_of ps = [] \/ exists c t rest, texts_of ps = String c t :: rest.
Proof.
  induction ps as [|p ps IH]; simpl; [now left|].
  destruct (text p) as [[|c t]|]; trivial.
  right. now exists c, t, (texts_of ps).
Qed.

Lemma convertContent_translated (content : GeminiContent) (k : nat) :
  convertContent random_base36 content k
  = (translated_entry random_base36 k content,
     k + List.length (calls_of (parts content))).
Proof.
  unfold convertContent, translated_entry, mapped_role.
  rewrite fold_push_part. cbn [List.app].
  destruct (texts_of_head (parts content)) as [E|(c & t & rest & E)];
    rewrite E.
  - destruct (calls_of (parts content)) as [|fc fcs]; reflexivity.
  - destruct (join_nonempty c t rest) as (u & J). cbn [List.length].
    change (Nat.ltb 0 (S (List.length rest))) with true. cbv iota.
    rewrite J.
    destruct (calls_of (parts content)) as [|fc fcs]; reflexivity.
Qed.

Lemma fold_push_content (cs : list GeminiContent)
    (messages : list ChatMessage) (k : nat) :
  exists k',
    fold_left (push_content random_base36) cs (messages, k)
    = ((messages ++ translated_entries random_base36 k cs)%list, k').
Proof.
  revert messages k; induction cs as [|c cs IH]; intros messages k.
  - exists k. simpl. now rewrite List.app_nil_r.
  - cbn [fold_left translated_entries]. unfold push_content at 2.
    rewrite convertContent_translated.
    destruct (IH (push messages (translated_entry random_base36 k c))
                (k + List.length (calls_of (parts c)))) as (k' & E).
    exists k'. rewrite E. unfold push. now rewrite <- List.app_assoc.
Qed.

(** The messages of a request are the messages of its entries, in the
    order of the entries. *)
Lemma convertGeminiToOpenAI_messages (geminiRequest : GeminiRequest)
    (k : nat) :
  oa_messages (fst (convertGeminiToOpenAI random_base36 geminiRequest k))
  = translated_entries random_base36 k (contents geminiRequest).
Proof.
  unfold convertGeminiToOpenAI.
  destruct (fold_push_content (contents geminiRequest) [] k) as (k' & E).
  rewrite E. reflexivity.
Qed.

Lemma synthesized_calls_payload (k : nat) (fcs : list GeminiFunctionCall) :
  map call_payload (synthesized_calls random_base36 k fcs)
  = map serialized_call fcs.
Proof.
  revert k; induction fcs as [|fc fcs IH]; intros k; simpl;
    [reflexivity | now rewrite IH].
Qed.

(** C4: for a Gemini entry of which at least one function-call part was
    translated, the produced message carries a non-empty [tool_calls]
    list with one entry per function-call part, in order, each with the
    name and the serialized arguments of its part, and its content is
    [null] exactly when the entry has no text; and no produced message has
    an absent or empty [tool_calls] together with a content that is not a
    string. *)
Theorem tool_calls_and_content (content : GeminiContent) (k : nat) :
  let message := fst (convertContent random_base36 content k) in
  (calls_of (parts content) <> [] ->
   exists tool_calls,
     chat_tool_calls message = Some tool_calls
     /\ tool_calls <> []
     /\ map call_payload tool_calls
        = map serialized_call (calls_of (parts content))
     /\ (chat_content message = None <-> texts_of (parts content) = []))
  /\ (chat_tool_calls message = None \/ chat_tool_calls message = Some [] ->
      exists s, chat_content message = Some s).
Proof.
  rewrite convertContent_translated. cbn [fst].
  unfold translated_entry. cbn [chat_tool_calls chat_content].
  destruct (calls_of (parts content)) as [|fc fcs] eqn:Ec.
  - split; [congruence|]. intros _.
    destruct (texts_of (parts content)); eexists; reflexivity.
  - split.
    + intros _. eexists. split; [reflexivity|].
      split; [discriminate|].
      split; [apply synthesized_calls_payload|].
      destruct (texts_of (parts content)); split; congruence.
    + intros [H|H]; discriminate H.
Qed.

Lemma translated_entries_roles (k : nat) (cs : list GeminiContent) :
  map chat_role (translated_entries random_base36 k cs)
  = map (fun c => mapped_role (role c)) cs.
Proof.
  revert k; induction cs as [|c cs IH]; intros k; simpl;
    [reflexivity | now rewrite IH].
Qed.

Lemma translated_entries_texts (k : nat) (cs : list GeminiContent) :
  Forall2
    (fun c m =>
       (texts_of (parts c) <> [] ->
        chat_content m = Some (join LF (texts_of (parts c))))
       /\ (texts_of (parts c) = [] -> calls_of (parts c) = [] ->
           chat_content m = Some ""))
    cs (translated_entries random_base36 k cs).
Proof.
  revert k; induction cs as [|c cs IH]; intros k; simpl; constructor;
    [|apply IH].
  unfold translated_entry; simpl. split.
  - intros H. destruct (texts_of (parts c)); [congruence | reflexivity].
  - intros -> ->. reflexivity.
Qed.

(** C5 as claimed, joining each entry's text parts, fails on an entry with
    an empty text part: of the parts ["a"], [""], ["b"] the translation
    joins ["a"] and ["b"] only, while the three texts joined with a newline
    have an empty line between them. *)
Lemma empty_text_part_is_not_joined :
  map chat_content
    (oa_messages
       (fst (convertGeminiToOpenAI constant_random empty_text_request 0)))
  = [Some ("a" ++ LF ++ "b")]
  /\ all_texts_of (parts empty_text_entry) = ["a"; ""; "b"]
  /\ join LF (all_texts_of (parts empty_text_entry))
     = "a" ++ LF ++ LF ++ "b"
  /\ map chat_content
       (oa_messages
          (fst (convertGeminiToOpenAI constant_random empty_text_request 0)))
     <> [Some (join LF (all_texts_of (parts empty_text_entry)))].
Proof.
  split; [reflexivity|]. split; [reflexivity|]. split; [reflexivity|].
  discriminate.
Qed.

(** C5 (amended): the request translation maps the role ["model"] to
    ["assistant"] and passes every other role through, keeps the order of
    the contents list, and joins the non-empty text parts of each entry
    with a newline; the contents [user: "hi"], [model: "hello"] yield
    exactly the messages [user: "hi"], [assistant: "hello"]. *)
Theorem roles_order_and_text (geminiRequest : GeminiRequest) (k : nat) :
  let messages :=
    oa_messages (fst (convertGeminiToOpenAI random_base36 geminiRequest k)) in
  map chat_role messages
  = map (fun c => mapped_role (role c)) (contents geminiRequest)
  /\ mapped_role "model" = "assistant"
  /\ (forall r, r <> "model" -> mapped_role r = r)
  /\ Forall2
       (fun c m =>
          (texts_of (parts c) <> [] ->
           chat_content m = Some (join LF (texts_of (parts c))))
          /\ (texts_of (parts c) = [] -> calls_of (parts c) = [] ->
              chat_content m = Some ""))
       (contents geminiRequest) messages
  /\ oa_messages
       (fst (convertGeminiToOpenAI random_base36
               {| contents :=
                    [{| role := "user"; parts := [TextPart "hi"] |};
                     {| role := "model"; parts := [TextPart "hello"] |}];
                  generationConfig := None;
                  tools := None |} k))
     = [{| chat_role := "user"; chat_content := Some "hi";
           chat_tool_calls := None |};
        {| chat_role := "assistant"; chat_content := Some "hello";
           chat_tool_calls := None |}].
Proof.
  cbv zeta. rewrite convertGeminiToOpenAI_messages.
  split; [apply translated_entries_roles|].
  split; [reflexivity|].
  split.
  { intros r H. unfold mapped_role.
    destruct (r =? "model")%string eqn:E; [|reflexivity].
    apply String.eqb_eq in E. contradiction. }
  split; [apply translated_entries_texts | reflexivity].
Qed.

Example text_parts_joined :
  oa_messages
    (fst (convertGeminiToOpenAI random_base36
            {| contents :=
                 [{| role := "system";
                     parts := [TextPart "a"; FunctionCallPart "f" JNull;
                               TextPart "b"] |}];
               generationConfig := None;
               tools := None |} 0))
  = [{| chat_role := "system";
        chat_content := Some ("a" ++ LF ++ "b");
        chat_tool_calls :=
          Some [{| call_id := "call_" ++ substring 2 15 (random_base36 0);
                   call_type := "function";
                   call_function :=
                     {| fn_name := "f"; fn_arguments := "null" |} |}] |}].
Proof. reflexivity. Qed.

End GeminiRequestFacts.

(** ** Gemini round trip *)

Section GeminiRoundTrip.

Variable random_base36 : nat -> string.







End GeminiRoundTrip.


(** A negative zero among the arguments is read back as 0. *)
Example negative_zero_read_back :
  JSON_parse (JSON_stringify (JObj [("x", JNegZero)]))
  = Some (JObj [("x", JNum 0)]).
Proof. reflexivity. Qed.

(** The text [-0] is parsed to the negative zero. *)
Example parse_negative_zero : JSON_parse "[-0, 0, -1]"
  = Some (JArr [JNegZero; JNum 0; JNum (-1)]).
Proof. reflexivity. Qed.

Example call_f_there_and_back :
  oa_messages (fst (convertGeminiToOpenAI constant_random call_f_request 0))
  = [{| chat_role := "assistant";
        chat_content := None;
        chat_tool_calls :=
          Some [{| call_id := "call_4fzyo82mvyr";
                   call_type := "function";
                   call_function :=
                     {| fn_name := "f"; fn_arguments := "{" ++ quoted "x" ++ ":1}" |} |}] |}]
  /\ convertOpenAIToGemini
       {| choices :=
            [{| ch_message :=
                  {| rm_content := None;
                     rm_tool_calls :=
                       Some [{| call_id := "call_4fzyo82mvyr";
                                call_type := "function";
                                call_function :=
                                  {| fn_name := "f";
                                     fn_arguments := "{" ++ quoted "x" ++ ":1}" |} |}] |};
                ch_finish_reason := Some "tool_calls" |}];
          usage := None |} "gemini-1.5-pro"
     = Return
         {| candidates :=
              [{| cand_content :=
                    {| parts := [call_f_part]; role := "model" |};
                  finishReason := "STOP";
                  index := 0 |}];
            usageMetadata :=
              {| promptTokenCount := 0; candidatesTokenCount := 0;
                 totalTokenCount := 0 |};
            modelVersion := "gemini-1.5-pro" |}.
Proof. split; reflexivity. Qed.

(** ** The handlers *)

Lemma upstream_calls_push (events : list Event) (e : Event) :
  upstream_calls (push events e)
  = (upstream_calls events
     ++ match e with Upstream r => [r] | _ => [] end)%list.
Proof.
  unfold push. induction events as [|x events IH]; simpl.
  - destruct e; reflexivity.
  - destruct x; simpl; now rewrite IH.
Qed.

Lemma translator_calls_push (events : list Event) (e : Event) :
  translator_calls (push events e)
  = (translator_calls events
     ++ match e with Translate t => [t] | _ => [] end)%list.
Proof.
  unfold push. induction events as [|x events IH]; simpl.
  - destruct e; reflexivity.
  - destruct x; simpl; now rewrite IH.
Qed.

Lemma clampMaxTokens_le (requested : option Z) (ceiling : Z) :
  (clampMaxTokens requested ceiling <= ceiling)%Z.
Proof. unfold clampMaxTokens. apply Z.le_min_r. Qed.

Lemma clamp_at_call_site (requested : option Z) (ceiling : Z) :
  Math_min (num_or requested ceiling) ceiling
  = clampMaxTokens requested ceiling.
Proof. reflexivity. Qed.

Section HandlerFacts.

Variable parseInt : string -> Z.
Variable random_base36 : nat -> string.
Variable uuidv4 : nat -> string.
Variable chat_completions_create : ChatRequest -> outcome Completion.

(** Peeling the handler monad off a run. *)
Ltac run :=
  unfold try_catch, bind, read_json, translate, create, emit, lift, ret,
    throw, c_json, fresh_message_id, run_convertGeminiToOpenAI;
  cbn -[convertMessages convertTools responseContent createProvider
        getTargetConfig Math_min num_or convertGeminiToOpenAI
        convertOpenAIToGemini upstream_calls translator_calls push
        String.append substring remove_dashes usage_field].

Ltac upstream_of_trace :=
  cbn [fst snd trace random_draws uuid_draws];
  rewrite ?upstream_calls_push, ?translator_calls_push;
  cbn [List.app];
  rewrite ?List.app_nil_r.

(** Without a credential the Claude handler answers 401 with the flat
    error object and does nothing else. *)
Lemma post_v1_messages_no_key (c : Context MessagesRequest) (w : World) :
  truthy (claude_key c) = false ->
  post_v1_messages parseInt uuidv4 chat_completions_create c w
  = (Return
       {| http_status := 401;
          http_body :=
            ErrorFlat
              "Missing API key in Authorization header or x-api-key header" |},
     w).
Proof.
  unfold claude_key, post_v1_messages. intros H.
  destruct (extractApiKey _) as [[|k0 k1]|]; try discriminate H;
    reflexivity.
Qed.

(** Without a credential the Gemini handler answers 401, also with the
    flat error object, and does nothing else. *)
Lemma post_generateContent_no_key (c : Context GeminiRequest) (w : World) :
  truthy (gemini_key c) = false ->
  post_generateContent parseInt random_base36 chat_completions_create c w
  = (Return
       {| http_status := 401;
          http_body :=
            ErrorFlat
              "Missing API key in Authorization header or x-goog-api-key header" |},
     w).
Proof.
  unfold gemini_key, post_generateContent. intros H.
  destruct (extractApiKey _) as [[|k0 k1]|]; try discriminate H;
    reflexivity.
Qed.

(** Without a credential neither handler reads the body, runs a
    translator or calls upstream. *)
Lemma missing_credential_runs_nothing :
  (forall (c : Context MessagesRequest) (w : World),
      truthy (claude_key c) = false ->
      trace (snd (post_v1_messages parseInt uuidv4 chat_completions_create
                    c w))
      = trace w)
  /\ (forall (c : Context GeminiRequest) (w : World),
         truthy (gemini_key c) = false ->
         trace (snd (post_generateContent parseInt random_base36
                       chat_completions_create c w))
         = trace w).
Proof.
  split; intros c w H.
  - now rewrite post_v1_messages_no_key.
  - now rewrite post_generateContent_no_key.
Qed.

(** With a credential and a body, the Claude handler calls upstream
    exactly once, with the translated messages and the clamped token
    count; otherwise it does not call upstream at all. *)
Lemma post_v1_messages_sent (c : Context MessagesRequest) (w : World) :
  let after :=
    snd (post_v1_messages parseInt uuidv4 chat_completions_create c w) in
  match claude_key c, req_json c with
  | Some (String k0 k1), Return request =>
      exists r,
        upstream_calls (trace after) = (upstream_calls (trace w) ++ [r])%list
        /\ cr_apiKey r = String k0 k1
        /\ cr_messages r = convertMessages (req_messages request)
        /\ cr_max_tokens r
           = clampMaxTokens (req_max_tokens request)
               (prov_maxTokens (createProvider parseInt (env c)))
  | _, _ => upstream_calls (trace after) = upstream_calls (trace w)
  end.
Proof.
  cbv zeta. unfold claude_key, post_v1_messages.
  destruct (extractApiKey _) as [[|k0 k1]|]; try reflexivity.
  run.
  destruct (req_json c) as [request|e]; run; [|now upstream_of_trace].
  rewrite clamp_at_call_site.
  destruct (req_tools request) as [ts|]; run;
    (match goal with
     | |- context [chat_completions_create ?r] =>
         exists r; destruct (chat_completions_create r) as [completion|e]
     end;
     [destruct (choices completion) as [|choice rest];
      [|destruct (rm_tool_calls (ch_message choice)) eqn:Ecalls; run;
        destruct (responseContent (ch_message choice))
          as [[content stop]|e]]|]);
    run; upstream_of_trace; repeat split.
Qed.

Lemma convertGeminiToOpenAI_max_tokens (geminiRequest : GeminiRequest)
    (k : nat) :
  oa_max_tokens (fst (convertGeminiToOpenAI random_base36 geminiRequest k))
  = match generationConfig geminiRequest with
    | Some g => maxOutputTokens g
    | None => None
    end.
Proof.
  unfold convertGeminiToOpenAI.
  destruct (fold_left _ _ _) as [messages k']. reflexivity.
Qed.

(** With a credential and a body, the Gemini handler calls upstream
    exactly once, with the translated messages and the clamped token
    count; otherwise it does not call upstream at all. *)
Lemma post_generateContent_sent (c : Context GeminiRequest) (w : World) :
  let after :=
    snd (post_generateContent parseInt random_base36 chat_completions_create
           c w) in
  match gemini_key c, req_json c with
  | Some (String k0 k1), Return geminiRequest =>
      exists r,
        upstream_calls (trace after) = (upstream_calls (trace w) ++ [r])%list
        /\ cr_apiKey r = String k0 k1
        /\ cr_messages r
           = oa_messages
               (fst (convertGeminiToOpenAI random_base36 geminiRequest
                       (random_draws w)))
        /\ cr_max_tokens r
           = clampMaxTokens
               (match generationConfig geminiRequest with
                | Some g => maxOutputTokens g
                | None => None
                end)
               (prov_maxTokens (createProvider parseInt (env c)))
  | _, _ => upstream_calls (trace after) = upstream_calls (trace w)
  end.
Proof.
  cbv zeta. unfold gemini_key, post_generateContent.
  destruct (extractApiKey _) as [[|k0 k1]|]; try reflexivity.
  run.
  destruct (req_json c) as [geminiRequest|e]; run; [|now upstream_of_trace].
  pose proof (convertGeminiToOpenAI_max_tokens geminiRequest (random_draws w))
    as Hmax.
  destruct (convertGeminiToOpenAI random_base36 geminiRequest (random_draws w))
    as [args k'].
  cbn [fst] in *. run. rewrite clamp_at_call_site, Hmax.
  match goal with
  | |- context [chat_completions_create ?r] =>
      exists r; destruct (chat_completions_create r) as [completion|e]
  end;
    [destruct (convertOpenAIToGemini completion (param_model c)) as [g|e]|];
    run; upstream_of_trace; repeat split.
Qed.

(** The Claude handler always answers, with a Claude message or with the
    flat error object. *)
Lemma post_v1_messages_body (c : Context MessagesRequest) (w : World) :
  exists r w',
    post_v1_messages parseInt uuidv4 chat_completions_create c w
    = (Return r, w')
    /\ ((http_status r = 200%Z /\ exists b, http_body r = ClaudeBody b)
        \/ exists e, http_body r = ErrorFlat e).
Proof.
  unfold post_v1_messages.
  destruct (extractApiKey _) as [[|k0 k1]|];
    try (eexists; eexists; split; [reflexivity | right; eexists; reflexivity]).
  run.
  destruct (req_json c) as [request|e]; run;
    [|eexists; eexists; split; [reflexivity | right; eexists; reflexivity]].
  destruct (req_tools request) as [ts|]; run;
    (match goal with
     | |- context [chat_completions_create ?r] =>
         destruct (chat_completions_create r) as [completion|e]
     end;
     [destruct (choices completion) as [|choice rest];
      [|destruct (rm_tool_calls (ch_message choice)) eqn:Ecalls; run;
        destruct (responseContent (ch_message choice))
          as [[content stop]|e]]|]);
    run; eexists; eexists;
    (split; [reflexivity|]);
    first [ right; eexists; reflexivity
          | left; split; [reflexivity | eexists; reflexivity] ].
Qed.

(** The Gemini handler always answers: with a Gemini response; with the
    nested error object when something throws behind the credential check;
    with the flat error object when the credential is missing. *)
Lemma post_generateContent_body (c : Context GeminiRequest) (w : World) :
  exists r w',
    post_generateContent parseInt random_base36 chat_completions_create c w
    = (Return r, w')
    /\ ((http_status r = 200%Z /\ exists b, http_body r = GeminiBody b)
        \/ (truthy (gemini_key c) = true
            /\ r = {| http_status := 500;
                      http_body :=
                        ErrorNested 500 "Internal server error" "INTERNAL" |})
        \/ (truthy (gemini_key c) = false
            /\ http_status r = 401%Z
            /\ exists e, http_body r = ErrorFlat e)).
Proof.
  unfold gemini_key, post_generateContent.
  destruct (extractApiKey _) as [[|k0 k1]|];
    try (eexists; eexists; split;
         [reflexivity
         | right; right; repeat split; eexists; reflexivity]).
  run.
  destruct (req_json c) as [geminiRequest|e]; run;
    [|eexists; eexists; split; [reflexivity | right; left; now split]].
  destruct (convertGeminiToOpenAI random_base36 geminiRequest (random_draws w))
    as [args k'].
  run.
  match goal with
  | |- context [chat_completions_create ?r] =>
      destruct (chat_completions_create r) as [completion|e]
  end;
    [destruct (convertOpenAIToGemini completion (param_model c)) as [g|e]|];
    run; eexists; eexists;
    (split; [reflexivity|]);
    first [ right; left; now split
          | left; split; [reflexivity | eexists; reflexivity] ].
Qed.

(** C7: a call with a credential and a readable body makes each handler
    call upstream exactly once, with the max-token value
    [min(requested or ceiling, ceiling)] of the request and of the provider
    ceiling; no run makes an upstream call with another value, and the
    value never exceeds the ceiling.  Under a ceiling of 16384 a request of
    20000 is sent as 16384 and a request of 1000 as 1000, by both
    handlers. *)
Theorem max_tokens_clamped :
  (forall (c : Context MessagesRequest) (w : World) k0 k1 request,
      claude_key c = Some (String k0 k1) ->
      req_json c = Return request ->
      exists r,
        upstream_calls
          (trace (snd (post_v1_messages parseInt uuidv4
                         chat_completions_create c w)))
        = (upstream_calls (trace w) ++ [r])%list
        /\ cr_max_tokens r
           = Z.min (match req_max_tokens request with
                    | Some n => if (n =? 0)%Z
                                then prov_maxTokens
                                       (createProvider parseInt (env c))
                                else n
                    | None => prov_maxTokens (createProvider parseInt (env c))
                    end)
                   (prov_maxTokens (createProvider parseInt (env c)))
        /\ cr_max_tokens r
           = clampMaxTokens (req_max_tokens request)
               (prov_maxTokens (createProvider parseInt (env c)))
        /\ (cr_max_tokens r
            <= prov_maxTokens (createProvider parseInt (env c)))%Z)
  /\ (forall (c : Context GeminiRequest) (w : World) k0 k1 geminiRequest,
         gemini_key c = Some (String k0 k1) ->
         req_json c = Return geminiRequest ->
         exists r,
           upstream_calls
             (trace (snd (post_generateContent parseInt random_base36
                            chat_completions_create c w)))
           = (upstream_calls (trace w) ++ [r])%list
           /\ cr_max_tokens r
              = clampMaxTokens
                  (match generationConfig geminiRequest with
                   | Some g => maxOutputTokens g
                   | None => None
                   end)
                  (prov_maxTokens (createProvider parseInt (env c)))
           /\ (cr_max_tokens r
               <= prov_maxTokens (createProvider parseInt (env c)))%Z)
  /\ (forall (c : Context MessagesRequest) (w : World),
         exists sent,
           upstream_calls
             (trace (snd (post_v1_messages parseInt uuidv4
                            chat_completions_create c w)))
           = (upstream_calls (trace w) ++ sent)%list
           /\ forall r, In r sent ->
                exists request,
                  req_json c = Return request
                  /\ cr_max_tokens r
                     = clampMaxTokens (req_max_tokens request)
                         (prov_maxTokens (createProvider parseInt (env c)))
                  /\ (cr_max_tokens r
                      <= prov_maxTokens (createProvider parseInt (env c)))%Z)
  /\ (forall (c : Context GeminiRequest) (w : World),
         exists sent,
           upstream_calls
             (trace (snd (post_generateContent parseInt random_base36
                            chat_completions_create c w)))
           = (upstream_calls (trace w) ++ sent)%list
           /\ forall r, In r sent ->
                exists geminiRequest,
                  req_json c = Return geminiRequest
                  /\ cr_max_tokens r
                     = clampMaxTokens
                         (match generationConfig geminiRequest with
                          | Some g => maxOutputTokens g
                          | None => None
                          end)
                         (prov_maxTokens (createProvider parseInt (env c)))
                  /\ (cr_max_tokens r
                      <= prov_maxTokens (createProvider parseInt (env c)))%Z)
  /\ (forall requested ceiling,
         (clampMaxTokens requested ceiling <= ceiling)%Z)
  /\ clampMaxTokens (Some 20000%Z) 16384 = 16384%Z
  /\ clampMaxTokens (Some 1000%Z) 16384 = 1000%Z
  /\ (forall (c : Context MessagesRequest) (w : World) k0 k1 request,
         claude_key c = Some (String k0 k1) ->
         req_json c = Return request ->
         prov_maxTokens (createProvider parseInt (env c)) = 16384%Z ->
         (req_max_tokens request = Some 20000%Z ->
          map cr_max_tokens
            (upstream_calls
               (trace (snd (post_v1_messages parseInt uuidv4
                              chat_completions_create c w))))
          = (map cr_max_tokens (upstream_calls (trace w)) ++ [16384%Z])%list)
         /\ (req_max_tokens request = Some 1000%Z ->
             map cr_max_tokens
               (upstream_calls
                  (trace (snd (post_v1_messages parseInt uuidv4
                                 chat_completions_create c w))))
             = (map cr_max_tokens (upstream_calls (trace w))
                ++ [1000%Z])%list))
  /\ (forall (c : Context GeminiRequest) (w : World) k0 k1 geminiRequest g,
         gemini_key c = Some (String k0 k1) ->
         req_json c = Return geminiRequest ->
         generationConfig geminiRequest = Some g ->
         prov_maxTokens (createProvider parseInt (env c)) = 16384%Z ->
         (maxOutputTokens g = Some 20000%Z ->
          map cr_max_tokens
            (upstream_calls
               (trace (snd (post_generateContent parseInt random_base36
                              chat_completions_create c w))))
          = (map cr_max_tokens (upstream_calls (trace w)) ++ [16384%Z])%list)
         /\ (maxOutputTokens g = Some 1000%Z ->
             map cr_max_tokens
               (upstream_calls
                  (trace (snd (post_generateContent parseInt random_base36
                                 chat_completions_create c w))))
             = (map cr_max_tokens (upstream_calls (trace w))
                ++ [1000%Z])%list))
  /\ map cr_max_tokens
       (upstream_calls
          (trace (snd (post_v1_messages decimal_parseInt constant_uuid
                         hello_upstream
                         (claude_call (hello_request (Some 20000%Z)))
                         fresh_world))))
     = [16384%Z]
  /\ map cr_max_tokens
       (upstream_calls
          (trace (snd (post_v1_messages decimal_parseInt constant_uuid
                         hello_upstream
                         (claude_call (hello_request (Some 1000%Z)))
                         fresh_world))))
     = [1000%Z]
  /\ map cr_max_tokens
       (upstream_calls
          (trace (snd (post_generateContent decimal_parseInt constant_random
                         hello_upstream
                         (gemini_call (output_tokens_request 20000))
                         fresh_world))))
     = [16384%Z]
  /\ map cr_max_tokens
       (upstream_calls
          (trace (snd (post_generateContent decimal_parseInt constant_random
                         hello_upstream
                         (gemini_call (output_tokens_request 1000))
                         fresh_world))))
     = [1000%Z].
Proof.
  repeat match goal with |- _ /\ _ => split end;
    try exact clampMaxTokens_le;
    try (vm_compute; reflexivity).
  - intros c w k0 k1 request Hkey Hbody.
    pose proof (post_v1_messages_sent c w) as H. cbv zeta in H.
    rewrite Hkey, Hbody in H. destruct H as (r & Hsent & _ & _ & Hmax).
    exists r. split; [exact Hsent|].
    split; [exact Hmax|]. split; [exact Hmax|].
    rewrite Hmax. apply clampMaxTokens_le.
  - intros c w k0 k1 geminiRequest Hkey Hbody.
    pose proof (post_generateContent_sent c w) as H. cbv zeta in H.
    rewrite Hkey, Hbody in H. destruct H as (r & Hsent & _ & _ & Hmax).
    exists r. split; [exact Hsent|]. split; [exact Hmax|].
    rewrite Hmax. apply clampMaxTokens_le.
  - intros c w. pose proof (post_v1_messages_sent c w) as H. cbv zeta in H.
    destruct (claude_key c) as [[|k0 k1]|];
      try (exists []; rewrite List.app_nil_r; split; [exact H | intros r []]).
    destruct (req_json c) as [request|e];
      try (exists []; rewrite List.app_nil_r; split; [exact H | intros r []]).
    destruct H as (r & Hsent & _ & _ & Hmax).
    exists [r]. split; [exact Hsent|].
    intros r' [<-|[]]. exists request. split; [reflexivity|].
    split; [exact Hmax|]. rewrite Hmax. apply clampMaxTokens_le.
  - intros c w. pose proof (post_generateContent_sent c w) as H.
    cbv zeta in H.
    destruct (gemini_key c) as [[|k0 k1]|];
      try (exists []; rewrite List.app_nil_r; split; [exact H | intros r []]).
    destruct (req_json c) as [geminiRequest|e];
      try (exists []; rewrite List.app_nil_r; split; [exact H | intros r []]).
    destruct H as (r & Hsent & _ & _ & Hmax).
    exists [r]. split; [exact Hsent|].
    intros r' [<-|[]]. exists geminiRequest. split; [reflexivity|].
    split; [exact Hmax|]. rewrite Hmax. apply clampMaxTokens_le.
  - intros c w k0 k1 request Hkey Hbody Hceiling.
    pose proof (post_v1_messages_sent c w) as H. cbv zeta in H.
    rewrite Hkey, Hbody, Hceiling in H.
    destruct H as (r & Hsent & _ & _ & Hmax).
    rewrite Hsent, map_app. cbn [map]. rewrite Hmax.
    split; intros ->; reflexivity.
  - intros c w k0 k1 geminiRequest g Hkey Hbody Hcfg Hceiling.
    pose proof (post_generateContent_sent c w) as H. cbv zeta in H.
    rewrite Hkey, Hbody, Hcfg, Hceiling in H.
    destruct H as (r & Hsent & _ & _ & Hmax).
    rewrite Hsent, map_app. cbn [map]. rewrite Hmax.
    split; intros ->; reflexivity.
Qed.

(** C10: a Claude request with [max_tokens] present and equal to 0, and a
    Gemini request with [generationConfig.maxOutputTokens] present and
    equal to 0, are sent upstream with the provider ceiling as max-token
    value, as a request without the field is. *)
Theorem zero_max_tokens_is_ceiling :
  (forall (c : Context MessagesRequest) (w : World) k0 k1 request,
      claude_key c = Some (String k0 k1) ->
      req_json c = Return request ->
      req_max_tokens request = Some 0%Z \/ req_max_tokens request = None ->
      exists r,
        upstream_calls
          (trace (snd (post_v1_messages parseInt uuidv4
                         chat_completions_create c w)))
        = (upstream_calls (trace w) ++ [r])%list
        /\ cr_max_tokens r
           = prov_maxTokens (createProvider parseInt (env c)))
  /\ (forall (c : Context GeminiRequest) (w : World) k0 k1 geminiRequest g,
         gemini_key c = Some (String k0 k1) ->
         req_json c = Return geminiRequest ->
         generationConfig geminiRequest = Some g ->
         maxOutputTokens g = Some 0%Z \/ maxOutputTokens g = None ->
         exists r,
           upstream_calls
             (trace (snd (post_generateContent parseInt random_base36
                            chat_completions_create c w)))
           = (upstream_calls (trace w) ++ [r])%list
           /\ cr_max_tokens r
              = prov_maxTokens (createProvider parseInt (env c))).
Proof.
  split.
  - intros c w k0 k1 request Hkey Hbody Hzero.
    pose proof (post_v1_messages_sent c w) as H. cbv zeta in H.
    rewrite Hkey, Hbody in H. destruct H as (r & Hsent & _ & _ & Hmax).
    exists r. split; [exact Hsent|]. rewrite Hmax.
    unfold clampMaxTokens. destruct Hzero as [-> | ->]; apply Z.min_id.
  - intros c w k0 k1 geminiRequest g Hkey Hbody Hcfg Hzero.
    pose proof (post_generateContent_sent c w) as H. cbv zeta in H.
    rewrite Hkey, Hbody, Hcfg in H. destruct H as (r & Hsent & _ & _ & Hmax).
    exists r. split; [exact Hsent|]. rewrite Hmax.
    unfold clampMaxTokens. destruct Hzero as [-> | ->]; apply Z.min_id.
Qed.

(** C9 at a Gemini call without credential: the claim asks for Gemini's
    nested error object; the handler answers 401 with the flat object of
    the Claude path, before it reads the body, translates or calls
    upstream. *)
Theorem gemini_missing_credential_is_flat (body : outcome GeminiRequest)
    (model : string) (e : Env) (w : World) :
  post_generateContent parseInt random_base36 chat_completions_create
    {| header := fun _ => None; req_json := body;
       param_model := model; env := e |} w
  = (Return
       {| http_status := 401;
          http_body :=
            ErrorFlat
              "Missing API key in Authorization header or x-goog-api-key header" |},
     w)
  /\ forall code message status,
       ErrorFlat
         "Missing API key in Authorization header or x-goog-api-key header"
       <> ErrorNested code message status.
Proof. split; [reflexivity | discriminate]. Qed.

End HandlerFacts.

(** A run of the Claude handler on an upstream answer with an empty
    [tool_calls] array: status 200, no content block, stop reason
    ["tool_use"]. *)
Example claude_run_empty_tool_calls :
  post_v1_messages decimal_parseInt constant_uuid empty_tool_calls_upstream
    (claude_call (hello_request (Some 20000%Z))) fresh_world
  = (Return
       {| http_status := 200;
          http_body :=
            ClaudeBody
              {| resp_id := "msg_123e4567e89b";
                 resp_model := "groq/claude-3-haiku";
                 resp_role := "assistant";
                 resp_type := "message";
                 resp_content := [];
                 resp_stop_reason := "tool_use";
                 resp_stop_sequence := None;
                 resp_usage := {| input_tokens := 0; output_tokens := 0 |} |} |},
     {| random_draws := 0; uuid_draws := 1;
        trace :=
          [ReadBody; Translate "convertMessages";
           Upstream
             {| cr_apiKey := "sk-1";
                cr_baseURL := "https://api.groq.com/openai/v1";
                cr_model := "moonshotai/kimi-k2-instruct";
                cr_messages :=
                  [{| chat_role := "user"; chat_content := Some "hi";
                      chat_tool_calls := None |}];
                cr_temperature := None;
                cr_max_tokens := 16384;
                cr_tools := None;
                cr_tool_choice := None;
                cr_stream := false |};
           Translate "convertToolCallsToAnthropic"] |}).
Proof. vm_compute. reflexivity. Qed.

(** A run of the Gemini handler on a request for 0 output tokens and a
    failing upstream: the ceiling is sent, the nested error comes back. *)
Example gemini_run_zero_tokens :
  post_generateContent decimal_parseInt constant_random failing_upstream
    (gemini_call zero_tokens_request) fresh_world
  = (Return
       {| http_status := 500;
          http_body := ErrorNested 500 "Internal server error" "INTERNAL" |},
     {| random_draws := 0; uuid_draws := 0;
        trace :=
          [ReadBody; Translate "convertGeminiToOpenAI";
           Upstream
             {| cr_apiKey := "sk-1";
                cr_baseURL := "https://api.groq.com/openai/v1";
                cr_model := "moonshotai/kimi-k2-instruct";
                cr_messages :=
                  [{| chat_role := "user"; chat_content := Some "hi";
                      chat_tool_calls := None |}];
                cr_temperature := None;
                cr_max_tokens := 16384;
                cr_tools := None;
                cr_tool_choice := Some (ChoiceString "auto");
                cr_stream := false |}] |}).
Proof. vm_compute. reflexivity. Qed.

(** A run of the Claude handler on a request for 0 tokens: the one
    upstream call asks for the ceiling. *)
Example claude_run_zero_max_tokens :
  map cr_max_tokens
    (upstream_calls
       (trace (snd (post_v1_messages decimal_parseInt constant_uuid
                      empty_tool_calls_upstream
                      (claude_call (hello_request (Some 0%Z))) fresh_world))))
  = [16384%Z]
  /\ translator_calls
       (trace (snd (post_v1_messages decimal_parseInt constant_uuid
                      empty_tool_calls_upstream
                      (claude_call (hello_request (Some 0%Z))) fresh_world)))
     = ["convertMessages"; "convertToolCallsToAnthropic"].
Proof. split; vm_compute; reflexivity. Qed.

(** * Further properties of the code *)

(** ** The credential *)

(** X1: the extracted credential is missing or empty, which is what makes
    a handler answer 401, exactly when the header value is absent, empty,
    or the bare prefix ["Bearer "]. *)
Theorem extractApiKey_falsy_iff (h : option string) :
  truthy (extractApiKey h) = false
  <-> truthy h = false \/ h = Some "Bearer ".
Proof.
  destruct h as [[|c v]|]; [split; auto | | split; auto].
  unfold extractApiKey.
  change (truthy (Some (String c v))) with true. cbn [negb].
  remember (startsWith (String c v) "Bearer ") as b eqn:E.
  symmetry in E. destruct b.
  - pose proof (startsWith_split _ _ E) as Hs.
    change (String.length "Bearer ") with 7 in Hs.
    remember (slice 7 (String c v)) as rest eqn:Er.
    split.
    + intros H. right. destruct rest as [|x y]; [|discriminate H].
      now rewrite Hs.
    + intros [H|H]; [discriminate H|].
      injection H as -> ->. simpl in Er. now subst rest.
  - split; [discriminate|].
    intros [H|H]; [discriminate H|].
    injection H as -> ->. simpl in E. discriminate E.
Qed.

(** ** Claude request translation, further *)

(** X3: the Claude request translation gives one message per message, each
    with a string content and without [tool_calls]: the tool-use and
    tool-result blocks of the request never become structured tool calls. *)
Theorem convertMessages_text_only (messages : list Message) :
  List.length (convertMessages messages) = List.length messages
  /\ Forall (fun m => chat_tool_calls m = None
                      /\ exists s, chat_content m = Some s)
            (convertMessages messages).
Proof.
  split; [apply length_map|].
  unfold convertMessages. apply Forall_map, Forall_forall. intros m _.
  rewrite convertMessage_flattened. split; [reflexivity|].
  eexists. reflexivity.
Qed.

Lemma join_contains (sep x : string) (l : list string) :
  In x l -> contains (join sep l) x.
Proof.
  unfold join. induction l as [|y l IH]; [intros []|].
  intros [->|H].
  - destruct l as [|z l].
    + exists "", "". simpl. now rewrite JsonFacts.append_nil_r.
    + exists "", (sep ++ String.concat sep (z :: l)). reflexivity.
  - destruct l as [|z l]; [destruct H|].
    destruct (IH H) as (before & after & E).
    exists (y ++ sep ++ before), after.
    change (String.concat sep (y :: z :: l))
      with (y ++ sep ++ String.concat sep (z :: l)).
    rewrite E. now rewrite !JsonFacts.append_assoc.
Qed.

(** X4: the flattened content of a block message holds the piece of every
    block of the message; a tool result with content [v] is found in it as
    [<tool_result>], the serialization of [v], [</tool_result>]. *)
Theorem every_block_is_in_the_text (r : string) (blocks : list Block)
    (b : Block) :
  In b blocks ->
  exists s,
    chat_content
      (convertMessage {| msg_role := r; msg_content := ContentBlocks blocks |})
    = Some s
    /\ contains s (flatten_block b)
    /\ forall id v, b = ToolResultBlock id v ->
         contains s ("<tool_result>" ++ JSON_stringify v ++ "</tool_result>").
Proof.
  intros H. rewrite convertMessage_flattened. eexists.
  split; [reflexivity|].
  assert (Hc : contains (join LF (map flatten_block blocks))
                 (flatten_block b))
    by now apply join_contains, in_map.
  split; [exact Hc|]. intros id v ->. exact Hc.
Qed.

Lemma every_block_is_in_the_text_witness :
  In ok_result_block ok_result_blocks
  /\ exists s,
       chat_content
         (convertMessage
            {| msg_role := "user";
               msg_content := ContentBlocks ok_result_blocks |})
       = Some s
       /\ contains s (flatten_block ok_result_block)
       /\ forall id v, ok_result_block = ToolResultBlock id v ->
            contains s
              ("<tool_result>" ++ JSON_stringify v ++ "</tool_result>").
Proof.
  split; [right; now left|].
  apply (every_block_is_in_the_text "user" ok_result_blocks ok_result_block).
  right. now left.
Defined.

(** X5: the identifiers of the blocks never reach the translated message:
    a tool use without its [id] and a tool result without its
    [tool_use_id] are flattened to the same text. *)
Theorem block_ids_are_dropped (r : string) (blocks : list Block) :
  convertMessage {| msg_role := r; msg_content := ContentBlocks blocks |}
  = convertMessage
      {| msg_role := r;
         msg_content := ContentBlocks (map erase_ids blocks) |}.
Proof.
  rewrite !convertMessage_flattened. unfold flattened_message. simpl.
  rewrite map_map. do 3 f_equal. apply map_ext.
  intros [t|id name input|id content]; reflexivity.
Qed.

(** ** [convertTools], further *)

(** X6: the tool translation gives one function descriptor per tool, in
    order, with the name and the schema of the tool; an absent or empty
    description becomes the empty string, any other is kept. *)
Theorem convertTools_descriptors (tools : list Tool) :
  Forall2
    (fun t d =>
       ft_type d = "function"
       /\ ft_name d = tool_name t
       /\ ft_parameters d = tool_input_schema t
       /\ (truthy (tool_description t) = false -> ft_description d = "")
       /\ (forall s, tool_description t = Some s -> s <> "" ->
                     ft_description d = s))
    tools (convertTools tools).
Proof.
  induction tools as [|t tools IH]; simpl; constructor; [|exact IH].
  simpl. repeat split.
  - destruct (tool_description t) as [[|c s]|]; trivial. discriminate.
  - intros s -> Hs. destruct s; [contradiction | reflexivity].
Qed.

(** ** [convertToolCallsToAnthropic], further *)

Lemma tool_use_blocks_parsable (tool_calls : list ToolCall) :
  Forall parsable tool_calls ->
  exists blocks,
    tool_use_blocks tool_calls = Some blocks
    /\ Forall2
         (fun tc b =>
            exists args,
              JSON_parse (fn_arguments (call_function tc)) = Some args
              /\ b = ToolUseBlock (call_id tc) (fn_name (call_function tc))
                       args)
         tool_calls blocks.
Proof.
  induction 1 as [|tc tcs Htc _ IH]; simpl.
  - exists []. split; [reflexivity | constructor].
  - destruct IH as (blocks & -> & HF). unfold parsable in Htc.
    destruct (JSON_parse (fn_arguments (call_function tc))) as [args|] eqn:E;
      [|contradiction].
    eexists. split; [reflexivity|]. constructor; [|exact HF].
    exists args. now split.
Qed.

Lemma tool_use_blocks_unparsable (tool_calls : list ToolCall) :
  Exists unparsable tool_calls -> tool_use_blocks tool_calls = None.
Proof.
  induction 1 as [tc tcs Htc|tc tcs _ IH]; simpl.
  - unfold unparsable in Htc. now rewrite Htc.
  - rewrite IH. now destruct (JSON_parse _).
Qed.

(** X7: the tool-call translation returns one tool-use block per call, in
    order, with the id and the name of the call and its parsed arguments,
    when the arguments of every call are JSON; one call whose arguments are
    not makes it throw, and no block is returned. *)
Theorem convertToolCallsToAnthropic_outcome (tool_calls : list ToolCall) :
  (Forall parsable tool_calls ->
   exists blocks,
     convertToolCallsToAnthropic tool_calls = Return blocks
     /\ Forall2
          (fun tc b =>
             exists args,
               JSON_parse (fn_arguments (call_function tc)) = Some args
               /\ b = ToolUseBlock (call_id tc) (fn_name (call_function tc))
                        args)
          tool_calls blocks)
  /\ (Exists unparsable tool_calls ->
      convertToolCallsToAnthropic tool_calls = Throw SyntaxError).
Proof.
  unfold convertToolCallsToAnthropic. rewrite push_tool_calls_blocks.
  split.
  - intros H. destruct (tool_use_blocks_parsable _ H) as (blocks & -> & HF).
    exists blocks. now split.
  - intros H. now rewrite (tool_use_blocks_unparsable _ H).
Qed.

(** ** Gemini request translation, further *)

Lemma texts_of_filter (ps : list GeminiPart) :
  texts_of (filter translatable ps) = texts_of ps.
Proof.
  induction ps as [|p ps IH]; simpl; [reflexivity|].
  unfold translatable at 1.
  destruct (text p) as [[|c t]|] eqn:Et; simpl;
    try (destruct (functionCall p); simpl; rewrite ?Et; exact IH).
  rewrite Et. now rewrite IH.
Qed.

Lemma calls_of_filter (ps : list GeminiPart) :
  calls_of (filter translatable ps) = calls_of ps.
Proof.
  induction ps as [|p ps IH]; simpl; [reflexivity|].
  unfold translatable at 1.
  destruct (text p) as [[|c t]|] eqn:Et; simpl;
    try (destruct (functionCall p) eqn:Ef; simpl; rewrite ?Et, ?Ef;
         now rewrite ?IH).
Qed.

Lemma texts_of_app (ps qs : list GeminiPart) :
  texts_of (ps ++ qs) = (texts_of ps ++ texts_of qs)%list.
Proof.
  induction ps as [|p ps IH]; simpl; [reflexivity|].
  destruct (text p) as [[|c t]|]; simpl; now rewrite ?IH.
Qed.

Lemma calls_of_app (ps qs : list GeminiPart) :
  calls_of (ps ++ qs) = (calls_of ps ++ calls_of qs)%list.
Proof.
  induction ps as [|p ps IH]; simpl; [reflexivity|].
  destruct (text p) as [[|c t]|]; trivial;
    destruct (functionCall p); simpl; now rewrite ?IH.
Qed.

Section GeminiRequestFurther.

Variable random_base36 : nat -> string.

Lemma fold_push_content_draws (cs : list GeminiContent)
    (messages : list ChatMessage) (k : nat) :
  fold_left (push_content random_base36) cs (messages, k)
  = ((messages ++ translated_entries random_base36 k cs)%list,
     k + total_calls cs).
Proof.
  revert messages k; induction cs as [|c cs IH]; intros messages k.
  - simpl. now rewrite List.app_nil_r, Nat.add_0_r.
  - cbn [fold_left translated_entries total_calls].
    unfold push_content at 2. rewrite convertContent_translated, IH.
    unfold push. now rewrite <- List.app_assoc, Nat.add_assoc.
Qed.

(** The whole result of the request translation. *)
Lemma convertGeminiToOpenAI_translated (geminiRequest : GeminiRequest)
    (k : nat) :
  convertGeminiToOpenAI random_base36 geminiRequest k
  = ({| oa_messages :=
          translated_entries random_base36 k (contents geminiRequest);
        oa_tools :=
          match tools geminiRequest with
          | Some (t :: ts) =>
              Some (flat_map
                      (fun tool =>
                         map convertFunctionDeclaration
                           (function_declarations tool))
                      (t :: ts))
          | _ => None
          end;
        oa_max_tokens :=
          match generationConfig geminiRequest with
          | Some g => maxOutputTokens g
          | None => None
          end;
        oa_temperature :=
          match generationConfig geminiRequest with
          | Some g => temperature g
          | None => None
          end |},
     k + total_calls (contents geminiRequest)).
Proof.
  unfold convertGeminiToOpenAI. now rewrite fold_push_content_draws.
Qed.

Lemma translated_entry_buckets (k : nat) (c1 c2 : GeminiContent) :
  role c1 = role c2 ->
  texts_of (parts c1) = texts_of (parts c2) ->
  calls_of (parts c1) = calls_of (parts c2) ->
  translated_entry random_base36 k c1 = translated_entry random_base36 k c2.
Proof.
  unfold translated_entry. now intros -> -> ->.
Qed.

Lemma translated_entries_stripped (k : nat) (cs : list GeminiContent) :
  translated_entries random_base36 k
    (map (fun c =>
            {| role := role c; parts := filter translatable (parts c) |}) cs)
  = translated_entries random_base36 k cs
  /\ total_calls
       (map (fun c =>
               {| role := role c; parts := filter translatable (parts c) |})
            cs)
     = total_calls cs.
Proof.
  revert k; induction cs as [|c cs IH]; intros k; simpl; [now split|].
  rewrite calls_of_filter.
  destruct (IH (k + List.length (calls_of (parts c)))) as [-> ->].
  split; [|reflexivity]. f_equal.
  apply translated_entry_buckets; simpl;
    [reflexivity | apply texts_of_filter | apply calls_of_filter].
Qed.

(** X9: parts that carry neither a non-empty text nor a function call,
    such as inline data and function responses, are dropped without a
    trace: the request without them is translated to the same result. *)
Theorem untranslated_parts_are_dropped (geminiRequest : GeminiRequest)
    (k : nat) :
  convertGeminiToOpenAI random_base36 (strip_untranslatable geminiRequest) k
  = convertGeminiToOpenAI random_base36 geminiRequest k.
Proof.
  rewrite !convertGeminiToOpenAI_translated.
  unfold strip_untranslatable. cbn [contents generationConfig tools].
  destruct (translated_entries_stripped k (contents geminiRequest))
    as [-> ->].
  reflexivity.
Qed.

(** X10: a part that carries both a non-empty text and a function call is
    translated as its text alone: the function call is lost. *)
Theorem text_wins_over_call (r : string) (before after : list GeminiPart)
    (p : GeminiPart) (t : string) (k : nat) :
  text p = Some t -> t <> "" ->
  convertContent random_base36
    {| role := r; parts := (before ++ p :: after)%list |} k
  = convertContent random_base36
      {| role := r; parts := (before ++ TextPart t :: after)%list |} k.
Proof.
  intros Ht Hne. rewrite !convertContent_translated.
  cbn [parts]. rewrite !calls_of_app. cbn [calls_of]. rewrite Ht.
  destruct t as [|c t]; [contradiction|]. cbn [TextPart text].
  f_equal. apply translated_entry_buckets; cbn [role parts];
    [reflexivity | |].
  - rewrite !texts_of_app. cbn [texts_of]. now rewrite Ht.
  - rewrite !calls_of_app. cbn [calls_of]. now rewrite Ht.
Qed.

(** X11: the message of an entry depends on its role, on its texts in
    order and on its function calls in order, and on nothing else: how
    the texts and the calls were interleaved is not kept. *)
Theorem interleaving_is_lost (c1 c2 : GeminiContent) (k : nat) :
  role c1 = role c2 ->
  texts_of (parts c1) = texts_of (parts c2) ->
  calls_of (parts c1) = calls_of (parts c2) ->
  convertContent random_base36 c1 k = convertContent random_base36 c2 k.
Proof.
  intros Hr Ht Hc. rewrite !convertContent_translated, Hc.
  f_equal. now apply translated_entry_buckets.
Qed.

End GeminiRequestFurther.

Lemma text_wins_over_call_witness :
  convertContent constant_random
    {| role := "model"; parts := ([] ++ text_and_call_part :: [])%list |} 0
  = convertContent constant_random
      {| role := "model"; parts := ([] ++ TextPart "hi" :: [])%list |} 0.
Proof.
  apply (text_wins_over_call constant_random "model" [] []
           text_and_call_part "hi" 0);
    [reflexivity | discriminate].
Defined.

Lemma interleaving_is_lost_witness :
  convertContent constant_random interleaved_entry 0
  = convertContent constant_random bucketed_entry 0.
Proof.
  apply (interleaving_is_lost constant_random interleaved_entry
           bucketed_entry 0); reflexivity.
Defined.

Lemma substring_length (n m : nat) (s : string) :
  String.length (String.substring n m s) <= m.
Proof.
  revert n m; induction s as [|c s IH]; intros n m.
  - destruct n, m; simpl; lia.
  - destruct n as [|n]; [destruct m as [|m]|]; simpl.
    + lia.
    + specialize (IH 0 m). lia.
    + apply IH.
Qed.

Section GeminiIds.

Variable random_base36 : nat -> string.

Lemma synthesized_calls_ids (k : nat) (fcs : list GeminiFunctionCall) :
  map call_id (synthesized_calls random_base36 k fcs)
  = map (synthesized_id random_base36) (seq k (List.length fcs)).
Proof.
  revert k; induction fcs as [|fc fcs IH]; intros k; simpl;
    [reflexivity | now rewrite IH].
Qed.

Lemma tool_calls_of_translated (k : nat) (c : GeminiContent) :
  tool_calls_of (translated_entry random_base36 k c)
  = synthesized_calls random_base36 k (calls_of (parts c)).
Proof.
  unfold tool_calls_of, translated_entry. cbn [chat_tool_calls].
  now destruct (calls_of (parts c)).
Qed.

Lemma translated_entries_ids (k : nat) (cs : list GeminiContent) :
  map call_id
    (flat_map tool_calls_of (translated_entries random_base36 k cs))
  = map (synthesized_id random_base36) (seq k (total_calls cs)).
Proof.
  revert k; induction cs as [|c cs IH]; intros k; simpl; [reflexivity|].
  rewrite map_app, IH, tool_calls_of_translated, synthesized_calls_ids.
  now rewrite seq_app, map_app.
Qed.

(** X12: the request translation draws from [Math.random] once per
    function-call part and no more, and the ids of its tool calls, read
    message after message, are the ids made of those successive draws: two
    ids of a request differ exactly when their draws give different
    suffixes, nothing else keeps them apart. *)
Theorem ids_are_successive_draws (geminiRequest : GeminiRequest) (k : nat) :
  snd (convertGeminiToOpenAI random_base36 geminiRequest k)
  = k + total_calls (contents geminiRequest)
  /\ map call_id
       (flat_map tool_calls_of
          (oa_messages
             (fst (convertGeminiToOpenAI random_base36 geminiRequest k))))
     = map (synthesized_id random_base36)
         (seq k (total_calls (contents geminiRequest))).
Proof.
  rewrite convertGeminiToOpenAI_translated. cbn [fst snd oa_messages].
  split; [reflexivity | apply translated_entries_ids].
Qed.

Lemma synthesized_id_shape (k : nat) :
  startsWith (synthesized_id random_base36 k) "call_" = true
  /\ String.length (synthesized_id random_base36 k) <= 18.
Proof.
  unfold synthesized_id. split; [apply startsWith_append|].
  rewrite JsonFacts.length_append. unfold substring.
  pose proof (substring_length 2 (15 - 2) (random_base36 k)) as H.
  change (15 - 2) with 13 in *. change (String.length "call_") with 5. lia.
Qed.

Lemma synthesized_calls_shape (k : nat) (fcs : list GeminiFunctionCall) :
  Forall (fun tc => startsWith (call_id tc) "call_" = true
                    /\ String.length (call_id tc) <= 18
                    /\ call_type tc = "function")
         (synthesized_calls random_base36 k fcs).
Proof.
  revert k; induction fcs as [|fc fcs IH]; intros k; simpl;
    constructor; [|apply IH].
  cbn [call_id call_type]. destruct (synthesized_id_shape k). now repeat split.
Qed.

(** X13: every tool call of every translated message has the type
    ["function"] and an id that begins with ["call_"] and is at most 18
    characters long, whatever [Math.random] gives. *)
Theorem synthesized_ids_shape (geminiRequest : GeminiRequest) (k : nat) :
  Forall
    (fun m =>
       Forall (fun tc => startsWith (call_id tc) "call_" = true
                         /\ String.length (call_id tc) <= 18
                         /\ call_type tc = "function")
              (tool_calls_of m))
    (oa_messages (fst (convertGeminiToOpenAI random_base36 geminiRequest k))).
Proof.
  rewrite convertGeminiToOpenAI_translated. cbn [fst oa_messages].
  generalize (contents geminiRequest) as cs. intros cs. revert k.
  induction cs as [|c cs IH]; intros k; simpl; constructor; [|apply IH].
  rewrite tool_calls_of_translated. apply synthesized_calls_shape.
Qed.

Lemma flat_map_names (groups : list GeminiTool) :
  map ft_name
    (flat_map
       (fun tool => map convertFunctionDeclaration (function_declarations tool))
       groups)
  = declared_names groups.
Proof.
  unfold declared_names. induction groups as [|t ts IH]; simpl;
    [reflexivity|].
  rewrite map_app, IH, map_map. reflexivity.
Qed.

(** X14: the function declarations of all tool groups are flattened into
    one list of function descriptors, group after group; no [tools] are
    passed on when the request has none or an empty list of groups, while
    groups without any declaration give an empty [tools] list; the token
    count and the temperature of the generation configuration are passed
    on as they are. *)
Theorem gemini_tools_flattened (geminiRequest : GeminiRequest) (k : nat) :
  let args := fst (convertGeminiToOpenAI random_base36 geminiRequest k) in
  (oa_tools args = None
   <-> tools geminiRequest = None \/ tools geminiRequest = Some [])
  /\ (forall t ts, tools geminiRequest = Some (t :: ts) ->
        exists descriptors,
          oa_tools args = Some descriptors
          /\ map ft_name descriptors = declared_names (t :: ts)
          /\ Forall (fun d => ft_type d = "function") descriptors)
  /\ (forall g, generationConfig geminiRequest = Some g ->
        oa_max_tokens args = maxOutputTokens g
        /\ oa_temperature args = temperature g)
  /\ (generationConfig geminiRequest = None ->
      oa_max_tokens args = None /\ oa_temperature args = None).
Proof.
  cbv zeta. rewrite convertGeminiToOpenAI_translated.
  cbn [fst oa_tools oa_max_tokens oa_temperature].
  split; [|split; [|split]].
  - destruct (tools geminiRequest) as [[|t ts]|]; split; auto;
      try discriminate; intros [H|H]; discriminate H.
  - intros t ts ->. eexists. split; [reflexivity|].
    split; [apply flat_map_names|].
    apply Forall_flat_map, Forall_forall. intros g _.
    apply Forall_map, Forall_forall. now intros d _.
  - now intros g ->.
  - now intros ->.
Qed.

End GeminiIds.

(** ** Gemini response translation, further *)

Lemma push_function_calls_parts (tool_calls : list ToolCall)
    (ps : list GeminiPart) :
  push_function_calls tool_calls ps
  = match function_call_parts tool_calls with
    | Some qs => Return (ps ++ qs)%list
    | None => Throw SyntaxError
    end.
Proof.
  revert ps; induction tool_calls as [|tc tcs IH]; intros ps; simpl.
  - now rewrite List.app_nil_r.
  - destruct (JSON_parse (fn_arguments (call_function tc))) as [args|];
      [|reflexivity].
    rewrite IH. destruct (function_call_parts tcs) as [qs|]; [|reflexivity].
    unfold push. now rewrite <- List.app_assoc.
Qed.

Lemma function_call_parts_parsable (tool_calls : list ToolCall) :
  Forall parsable tool_calls ->
  exists qs,
    function_call_parts tool_calls = Some qs
    /\ List.length qs = List.length tool_calls
    /\ texts_of qs = [].
Proof.
  induction 1 as [|tc tcs Htc _ IH]; simpl.
  - now exists [].
  - destruct IH as (qs & -> & Hlen & Htexts). unfold parsable in Htc.
    destruct (JSON_parse (fn_arguments (call_function tc))) as [args|];
      [|contradiction].
    eexists. split; [reflexivity|]. simpl. now rewrite Hlen.
Qed.

Lemma function_call_parts_unparsable (tool_calls : list ToolCall) :
  Exists unparsable tool_calls -> function_call_parts tool_calls = None.
Proof.
  induction 1 as [tc tcs Htc|tc tcs _ IH]; simpl.
  - unfold unparsable in Htc. now rewrite Htc.
  - rewrite IH. now destruct (JSON_parse _).
Qed.

(** X15: the Gemini response translation throws a [TypeError] on a
    completion without choices, and a [SyntaxError] when the first choice
    carries a tool call whose arguments are not JSON; it returns when the
    first choice has no tool calls or only tool calls with JSON arguments;
    and it never looks at a choice behind the first. *)
Theorem convertOpenAIToGemini_outcome (openaiResponse : Completion)
    (originalModel : string) :
  (choices openaiResponse = [] ->
   convertOpenAIToGemini openaiResponse originalModel = Throw TypeError)
  /\ (forall choice rest,
        choices openaiResponse = choice :: rest ->
        (forall tool_calls,
            rm_tool_calls (ch_message choice) = Some tool_calls ->
            Exists unparsable tool_calls ->
            convertOpenAIToGemini openaiResponse originalModel
            = Throw SyntaxError)
        /\ (rm_tool_calls (ch_message choice) = None
            \/ (exists tool_calls,
                   rm_tool_calls (ch_message choice) = Some tool_calls
                   /\ Forall parsable tool_calls) ->
            exists g,
              convertOpenAIToGemini openaiResponse originalModel = Return g)
        /\ convertOpenAIToGemini openaiResponse originalModel
           = convertOpenAIToGemini
               {| choices := [choice]; usage := usage openaiResponse |}
               originalModel).
Proof.
  unfold convertOpenAIToGemini. split; [now intros ->|].
  intros choice rest ->. cbn [choices usage]. split; [|split].
  - intros tcs -> H.
    now rewrite push_function_calls_parts, (function_call_parts_unparsable _ H).
  - intros [->|(tcs & -> & H)]; [eexists; reflexivity|].
    rewrite push_function_calls_parts.
    destruct (function_call_parts_parsable _ H) as (qs & -> & _).
    eexists; reflexivity.
  - reflexivity.
Qed.

Lemma function_call_parts_each (tool_calls : list ToolCall)
    (qs : list GeminiPart) :
  function_call_parts tool_calls = Some qs ->
  Forall2 part_of_tool_call tool_calls qs.
Proof.
  revert qs; induction tool_calls as [|tc tcs IH]; simpl.
  - intros qs [= <-]. constructor.
  - intros qs.
    destruct (JSON_parse (fn_arguments (call_function tc))) as [args|] eqn:E;
      [|discriminate].
    destruct (function_call_parts tcs) as [qs'|]; [|discriminate].
    intros [= <-]. constructor; [|now apply IH].
    exists args. now split.
Qed.

Lemma usage_field_reported (u : option Usage) (field : Usage -> option Z) :
  usage_field u field = reported_count u field.
Proof.
  unfold usage_field, reported_count, num_or.
  destruct u as [x|]; [|reflexivity].
  destruct (field x) as [n|]; [|reflexivity].
  destruct (Z.eqb_spec n 0) as [->|_]; reflexivity.
Qed.

(** X16: a returned Gemini response has exactly one candidate, with index
    0 and the role ["model"], and echoes the model name it was given; its
    parts are, in this order, the content as one text part, when the
    content is a non-empty string, and one function-call part per tool
    call of the first choice, in the order of the calls, each with the
    name of its call and the value its [arguments] string denotes; each of
    the three token counts is the count the upstream usage gives, and 0
    when the usage or that count is missing, the total included: it is not
    made up from the other counts. *)
Theorem gemini_response_envelope (openaiResponse : Completion)
    (originalModel : string) (g : GeminiResponse) :
  convertOpenAIToGemini openaiResponse originalModel = Return g ->
  exists choice cand calls,
    hd_error (choices openaiResponse) = Some choice
    /\ candidates g = [cand]
    /\ index cand = 0%Z
    /\ role (cand_content cand) = "model"
    /\ modelVersion g = originalModel
    /\ parts (cand_content cand)
       = (match rm_content (ch_message choice) with
          | Some (String c t) => [TextPart (String c t)]
          | _ => []
          end ++ calls)%list
    /\ Forall2 part_of_tool_call
         (match rm_tool_calls (ch_message choice) with
          | Some tool_calls => tool_calls
          | None => []
          end)
         calls
    /\ promptTokenCount (usageMetadata g)
       = reported_count (usage openaiResponse) prompt_tokens
    /\ candidatesTokenCount (usageMetadata g)
       = reported_count (usage openaiResponse) completion_tokens
    /\ totalTokenCount (usageMetadata g)
       = reported_count (usage openaiResponse) total_tokens.
Proof.
  unfold convertOpenAIToGemini.
  destruct (choices openaiResponse) as [|choice rest]; [discriminate|].
  intros H. exists choice.
  assert (Hparts : exists calls,
             match rm_tool_calls (ch_message choice) with
             | Some tool_calls =>
                 push_function_calls tool_calls
                   match rm_content (ch_message choice) with
                   | Some (String c t) => push [] (TextPart (String c t))
                   | _ => []
                   end
             | None =>
                 Return
                   match rm_content (ch_message choice) with
                   | Some (String c t) => push [] (TextPart (String c t))
                   | _ => []
                   end
             end
             = Return
                 (match rm_content (ch_message choice) with
                  | Some (String c t) => [TextPart (String c t)]
                  | _ => []
                  end ++ calls)%list
             /\ Forall2 part_of_tool_call
                  (match rm_tool_calls (ch_message choice) with
                   | Some tool_calls => tool_calls
                   | None => []
                   end)
                  calls).
  { destruct (rm_tool_calls (ch_message choice)) as [tcs|].
    - rewrite push_function_calls_parts in *.
      destruct (function_call_parts tcs) as [qs|] eqn:Eq; [|discriminate H].
      exists qs. split; [|now apply function_call_parts_each].
      destruct (rm_content (ch_message choice)) as [[|c t]|]; reflexivity.
    - exists []. split; [|constructor].
      rewrite List.app_nil_r.
      destruct (rm_content (ch_message choice)) as [[|c t]|]; reflexivity. }
  destruct Hparts as (calls & E & Hcalls). rewrite E in H.
  injection H as <-. eexists. exists calls.
  cbn [candidates cand_content parts role index modelVersion usageMetadata
       promptTokenCount candidatesTokenCount totalTokenCount].
  rewrite !usage_field_reported.
  repeat split; trivial.
Qed.

(** The translation of an answer with a text, a tool call and a usage that
    gives the prompt count alone. *)
Lemma gemini_response_envelope_witness :
  convertOpenAIToGemini tool_call_completion "gemini-1.5-pro"
  = Return tool_call_response
  /\ exists choice cand calls,
       hd_error (choices tool_call_completion) = Some choice
       /\ candidates tool_call_response = [cand]
       /\ index cand = 0%Z
       /\ role (cand_content cand) = "model"
       /\ modelVersion tool_call_response = "gemini-1.5-pro"
       /\ parts (cand_content cand)
          = (match rm_content (ch_message choice) with
             | Some (String c t) => [TextPart (String c t)]
             | _ => []
             end ++ calls)%list
       /\ Forall2 part_of_tool_call
            (match rm_tool_calls (ch_message choice) with
             | Some tool_calls => tool_calls
             | None => []
             end)
            calls
       /\ promptTokenCount (usageMetadata tool_call_response)
          = reported_count (usage tool_call_completion) prompt_tokens
       /\ candidatesTokenCount (usageMetadata tool_call_response)
          = reported_count (usage tool_call_completion) completion_tokens
       /\ totalTokenCount (usageMetadata tool_call_response)
          = reported_count (usage tool_call_completion) total_tokens.
Proof.
  split; [reflexivity|].
  apply (gemini_response_envelope tool_call_completion "gemini-1.5-pro").
  reflexivity.
Defined.

(** The parts and the counts of that translation. *)
Example tool_call_response_parts :
  map (fun cand => parts (cand_content cand))
      (candidates tool_call_response)
  = [[TextPart "Calling f"; FunctionCallPart "f" (JObj [("x", JNum 1)])]]
  /\ reported_count (usage tool_call_completion) prompt_tokens = 7%Z
  /\ reported_count (usage tool_call_completion) completion_tokens = 0%Z
  /\ reported_count (usage tool_call_completion) total_tokens = 0%Z.
Proof. repeat split. Qed.

(** ** Configuration and listings *)

(** X17: each variable of the environment is read on its own, whatever
    the others hold: unset or set to the empty string it gives its
    default, the model [moonshotai/kimi-k2-instruct], the provider [groq],
    the base URL of Groq, the ceiling that [parseInt] reads from
    ["16384"]; set to a non-empty string it gives that string, the ceiling
    what [parseInt] reads from it.  The provider record has the provider
    name, the base URL and the ceiling of the configuration, and lists its
    model alone.  An environment that sets the model alone gives that
    model with the defaults of the three others. *)
Theorem unset_or_empty_variables_default (parseInt : string -> Z) (e : Env) :
  (truthy (TARGET_MODEL e) = false ->
   cfg_model (getTargetConfig parseInt e) = "moonshotai/kimi-k2-instruct")
  /\ (forall c t, TARGET_MODEL e = Some (String c t) ->
        cfg_model (getTargetConfig parseInt e) = String c t)
  /\ (truthy (TARGET_PROVIDER e) = false ->
      cfg_provider (getTargetConfig parseInt e) = "groq")
  /\ (forall c t, TARGET_PROVIDER e = Some (String c t) ->
        cfg_provider (getTargetConfig parseInt e) = String c t)
  /\ (truthy (TARGET_BASE_URL e) = false ->
      cfg_baseURL (getTargetConfig parseInt e)
      = "https://api.groq.com/openai/v1")
  /\ (forall c t, TARGET_BASE_URL e = Some (String c t) ->
        cfg_baseURL (getTargetConfig parseInt e) = String c t)
  /\ (truthy (TARGET_MAX_TOKENS e) = false ->
      cfg_maxTokens (getTargetConfig parseInt e) = parseInt "16384")
  /\ (forall c t, TARGET_MAX_TOKENS e = Some (String c t) ->
        cfg_maxTokens (getTargetConfig parseInt e) = parseInt (String c t))
  /\ createProvider parseInt e
     = {| prov_name := cfg_provider (getTargetConfig parseInt e);
          prov_baseURL := cfg_baseURL (getTargetConfig parseInt e);
          prov_models := [cfg_model (getTargetConfig parseInt e)];
          prov_maxTokens := cfg_maxTokens (getTargetConfig parseInt e) |}
  /\ getTargetConfig decimal_parseInt model_only_env
     = {| cfg_model := "llama-3.3-70b-versatile";
          cfg_provider := "groq";
          cfg_baseURL := "https://api.groq.com/openai/v1";
          cfg_maxTokens := 16384 |}
  /\ createProvider decimal_parseInt model_only_env
     = {| prov_name := "groq";
          prov_baseURL := "https://api.groq.com/openai/v1";
          prov_models := ["llama-3.3-70b-versatile"];
          prov_maxTokens := 16384 |}.
Proof.
  assert (D : forall o d, truthy o = false -> or_default o d = d).
  { intros [[|c t]|] d H; trivial. discriminate H. }
  unfold getTargetConfig at 1 2 3 4 5 6 7 8.
  cbn [cfg_provider cfg_baseURL cfg_model cfg_maxTokens].
  repeat match goal with |- _ /\ _ => split end;
    try reflexivity;
    try (intros H; now rewrite (D _ _ H));
    try (intros c t H; now rewrite H).
Qed.

(** X18: the two model listings and the configuration report agree with
    the provider the handlers use.  Every listed model advertises the
    provider's ceiling and target model; a Claude model is an object
    ["model"] that names the provider; a Gemini model advertises the
    ceiling both as input and as output limit, goes under the name
    ["models/"] followed by its display name, is described as its display
    name followed by [" model proxied through "] and the provider's name,
    and supports [generateContent] alone.  The Claude listing is an object
    ["list"].  The configuration report gives the provider's model, name,
    base URL and ceiling, and describes the four variables.  The listed
    ids do not depend on the environment. *)
Theorem listings_report_the_provider (parseInt : string -> Z) (e : Env) :
  let provider := createProvider parseInt e in
  Forall (fun m => cm_max_tokens m = prov_maxTokens provider
                   /\ cm_provider m = prov_name provider
                   /\ prov_models provider = [cm_target_model m]
                   /\ cm_object m = "model")
         (cl_data (get_v1_models parseInt e))
  /\ cl_object (get_v1_models parseInt e) = "list"
  /\ Forall (fun m => gm_inputTokenLimit m = prov_maxTokens provider
                      /\ gm_outputTokenLimit m = prov_maxTokens provider
                      /\ prov_models provider = [gm_target_model m]
                      /\ gm_name m = "models/" ++ gm_displayName m
                      /\ gm_description m
                         = gm_displayName m ++ " model proxied through "
                           ++ prov_name provider
                      /\ gm_supportedGenerationMethods m
                         = ["generateContent"])
            (get_v1beta_models parseInt e)
  /\ prov_models provider
     = [target_model (current_config (get_v1_config parseInt e))]
  /\ target_provider (current_config (get_v1_config parseInt e))
     = prov_name provider
  /\ target_max_tokens (current_config (get_v1_config parseInt e))
     = prov_maxTokens provider
  /\ target_base_url (current_config (get_v1_config parseInt e))
     = prov_baseURL provider
  /\ environment_variables (get_v1_config parseInt e)
     = [("TARGET_MODEL",
         "Target model to use (default: moonshotai/kimi-k2-instruct)");
        ("TARGET_PROVIDER", "Target provider name (default: groq)");
        ("TARGET_BASE_URL",
         "Target API base URL (default: https://api.groq.com/openai/v1)");
        ("TARGET_MAX_TOKENS", "Maximum tokens limit (default: 16384)")]
  /\ map cm_id (cl_data (get_v1_models parseInt e)) = claudeModels
  /\ map gm_displayName (get_v1beta_models parseInt e) = geminiModels
  /\ map gm_description (get_v1beta_models decimal_parseInt model_only_env)
     = ["gemini-2.5-flash model proxied through groq";
        "gemini-1.5-pro model proxied through groq";
        "gemini-1.5-flash model proxied through groq";
        "gemini-1.0-pro model proxied through groq"]
  /\ current_config (get_v1_config decimal_parseInt model_only_env)
     = {| target_model := "llama-3.3-70b-versatile";
          target_provider := "groq";
          target_base_url := "https://api.groq.com/openai/v1";
          target_max_tokens := 16384 |}.
Proof.
  cbv zeta. unfold get_v1_models, get_v1beta_models, get_v1_config,
    createProvider.
  cbn [cl_data cl_object current_config target_max_tokens target_base_url
       target_model target_provider environment_variables
       prov_maxTokens prov_name prov_models prov_baseURL].
  repeat match goal with |- _ /\ _ => split end; try reflexivity.
  - apply Forall_map, Forall_forall. now intros m _.
  - apply Forall_map, Forall_forall. now intros m _.
Qed.

(** ** The handlers, further *)

Lemma responseContent_unparsable (msg : ResponseMessage)
    (tool_calls : list ToolCall) :
  rm_tool_calls msg = Some tool_calls ->
  Exists unparsable tool_calls ->
  responseContent msg = Throw SyntaxError.
Proof.
  intros Hc H. unfold responseContent, convertToolCallsToAnthropic.
  now rewrite Hc, push_tool_calls_blocks, (tool_use_blocks_unparsable _ H).
Qed.

Lemma convertOpenAIToGemini_unparsable (openaiResponse : Completion)
    (originalModel : string) (choice : Choice) (rest : list Choice)
    (tool_calls : list ToolCall) :
  choices openaiResponse = choice :: rest ->
  rm_tool_calls (ch_message choice) = Some tool_calls ->
  Exists unparsable tool_calls ->
  convertOpenAIToGemini openaiResponse originalModel = Throw SyntaxError.
Proof.
  intros Hch Hc H. unfold convertOpenAIToGemini.
  now rewrite Hch, Hc, push_function_calls_parts,
    (function_call_parts_unparsable _ H).
Qed.

Section HandlerFurther.

Variable parseInt : string -> Z.
Variable random_base36 : nat -> string.
Variable uuidv4 : nat -> string.
Variable chat_completions_create : ChatRequest -> outcome Completion.

Ltac peel :=
  unfold try_catch, bind, read_json, translate, create, emit, lift, ret,
    throw, c_json, fresh_message_id, run_convertGeminiToOpenAI;
  cbn -[convertMessages convertTools responseContent createProvider
        getTargetConfig Math_min num_or convertGeminiToOpenAI
        convertOpenAIToGemini upstream_calls translator_calls push
        String.append substring remove_dashes usage_field].

Ltac calls_of_trace :=
  cbn [fst snd trace random_draws uuid_draws];
  rewrite ?upstream_calls_push, ?translator_calls_push;
  cbn [List.app];
  rewrite ?List.app_nil_r.

(** X19: with a credential and a readable body, the Claude handler calls
    upstream once, with the credential as key, the base URL and the model
    of the target configuration (the model the client asked for is not
    sent), the translated messages, the translated tools when the request
    has tools, the temperature and the tool choice of the request as they
    are, and never as a stream. *)
Theorem claude_upstream_request (c : Context MessagesRequest) (w : World)
    (k0 : ascii) (k1 : string) (request : MessagesRequest) :
  claude_key c = Some (String k0 k1) ->
  req_json c = Return request ->
  exists r,
    upstream_calls
      (trace (snd (post_v1_messages parseInt uuidv4 chat_completions_create
                     c w)))
    = (upstream_calls (trace w) ++ [r])%list
    /\ cr_apiKey r = String k0 k1
    /\ cr_baseURL r = prov_baseURL (createProvider parseInt (env c))
    /\ cr_model r = cfg_model (getTargetConfig parseInt (env c))
    /\ cr_messages r = convertMessages (req_messages request)
    /\ cr_tools r = option_map convertTools (req_tools request)
    /\ cr_temperature r = req_temperature request
    /\ cr_tool_choice r = req_tool_choice request
    /\ cr_stream r = false.
Proof.
  unfold claude_key, post_v1_messages. intros -> Hbody.
  peel. rewrite Hbody. peel.
  destruct (req_tools request) as [ts|]; peel;
    (match goal with
     | |- context [chat_completions_create ?r] =>
         exists r; destruct (chat_completions_create r) as [completion|e]
     end;
     [destruct (choices completion) as [|choice rest];
      [|destruct (rm_tool_calls (ch_message choice)) eqn:Ecalls; peel;
        destruct (responseContent (ch_message choice))
          as [[content stop]|e]]|]);
    peel; calls_of_trace; repeat split.
Qed.

(** X20: with a credential and a readable body, the Gemini handler calls
    upstream once, with the target model, the translated messages and
    tools, the temperature of the generation configuration, the tool
    choice ["auto"] whether or not the request has tools, and never as a
    stream; it draws from [Math.random] once per function-call part. *)
Theorem gemini_upstream_request (c : Context GeminiRequest) (w : World)
    (k0 : ascii) (k1 : string) (geminiRequest : GeminiRequest) :
  gemini_key c = Some (String k0 k1) ->
  req_json c = Return geminiRequest ->
  let args :=
    fst (convertGeminiToOpenAI random_base36 geminiRequest (random_draws w)) in
  let after :=
    snd (post_generateContent parseInt random_base36 chat_completions_create
           c w) in
  exists r,
    upstream_calls (trace after) = (upstream_calls (trace w) ++ [r])%list
    /\ cr_apiKey r = String k0 k1
    /\ cr_baseURL r = prov_baseURL (createProvider parseInt (env c))
    /\ cr_model r = cfg_model (getTargetConfig parseInt (env c))
    /\ cr_messages r = oa_messages args
    /\ cr_tools r = oa_tools args
    /\ cr_temperature r = oa_temperature args
    /\ cr_tool_choice r = Some (ChoiceString "auto")
    /\ cr_stream r = false
    /\ random_draws after
       = random_draws w + total_calls (contents geminiRequest)
    /\ uuid_draws after = uuid_draws w.
Proof.
  unfold gemini_key, post_generateContent. intros -> Hbody. cbv zeta.
  peel. rewrite Hbody. peel.
  rewrite (convertGeminiToOpenAI_translated random_base36).
  peel.
  match goal with
  | |- context [chat_completions_create ?r] =>
      exists r; destruct (chat_completions_create r) as [completion|e]
  end;
    [destruct (convertOpenAIToGemini completion (param_model c)) as [g|e]|];
    peel; calls_of_trace; repeat split.
Qed.

Ltac answer :=
  eexists; eexists; (split; [reflexivity|]);
  cbn [http_status http_body];
  repeat split; intros;
  try discriminate; try reflexivity; try assumption;
  first [ left; reflexivity
        | right; left; reflexivity
        | right; right; reflexivity
        | eexists; reflexivity
        | idtac ].

(** X21: the Claude handler always answers, with one of three statuses:
    401, exactly when the credential is missing or empty, and then without
    having done anything; 200 with a Claude message; or 500 with the one
    generic error object, whatever went wrong. *)
Theorem claude_statuses (c : Context MessagesRequest) (w : World) :
  exists r w',
    post_v1_messages parseInt uuidv4 chat_completions_create c w
    = (Return r, w')
    /\ (http_status r = 401%Z <-> truthy (claude_key c) = false)
    /\ (http_status r = 401%Z -> w' = w)
    /\ (http_status r = 200%Z -> exists b, http_body r = ClaudeBody b)
    /\ (http_status r = 200%Z \/ http_status r = 401%Z
        \/ r = claude_internal_error).
Proof.
  unfold claude_key, post_v1_messages.
  destruct (extractApiKey _) as [[|k0 k1]|]; try answer.
  peel.
  destruct (req_json c) as [request|e]; peel; [|answer].
  destruct (req_tools request) as [ts|]; peel;
    (match goal with
     | |- context [chat_completions_create ?r] =>
         destruct (chat_completions_create r) as [completion|e]
     end;
     [destruct (choices completion) as [|choice rest];
      [|destruct (rm_tool_calls (ch_message choice)) eqn:Ecalls; peel;
        destruct (responseContent (ch_message choice))
          as [[content stop]|e]]|]);
    peel; answer.
Qed.

(** X22: the Gemini handler always answers, with one of three statuses:
    401, exactly when the credential is missing or empty, and then without
    having done anything; 200 with a Gemini response; or 500 with the one
    generic nested error object, whatever went wrong. *)
Theorem gemini_statuses (c : Context GeminiRequest) (w : World) :
  exists r w',
    post_generateContent parseInt random_base36 chat_completions_create c w
    = (Return r, w')
    /\ (http_status r = 401%Z <-> truthy (gemini_key c) = false)
    /\ (http_status r = 401%Z -> w' = w)
    /\ (http_status r = 200%Z -> exists b, http_body r = GeminiBody b)
    /\ (http_status r = 200%Z \/ http_status r = 401%Z
        \/ r = gemini_internal_error).
Proof.
  unfold gemini_key, post_generateContent.
  destruct (extractApiKey _) as [[|k0 k1]|]; try answer.
  peel.
  destruct (req_json c) as [geminiRequest|e]; peel; [|answer].
  destruct (convertGeminiToOpenAI random_base36 geminiRequest (random_draws w))
    as [args k'].
  peel.
  match goal with
  | |- context [chat_completions_create ?r] =>
      destruct (chat_completions_create r) as [completion|e]
  end;
    [destruct (convertOpenAIToGemini completion (param_model c)) as [g|e]|];
    peel; answer.
Qed.

(** X23: when the body of a call with a credential cannot be read, both
    handlers answer 500 with their generic error, having read the body and
    done nothing else: no translator has run and upstream was not
    called. *)
Theorem unreadable_body (c : Context MessagesRequest)
    (g : Context GeminiRequest) (w : World) (e1 e2 : exn) :
  truthy (claude_key c) = true -> req_json c = Throw e1 ->
  truthy (gemini_key g) = true -> req_json g = Throw e2 ->
  (fst (post_v1_messages parseInt uuidv4 chat_completions_create c w)
   = Return claude_internal_error
   /\ trace (snd (post_v1_messages parseInt uuidv4 chat_completions_create
                    c w))
      = push (trace w) ReadBody)
  /\ (fst (post_generateContent parseInt random_base36
             chat_completions_create g w)
      = Return gemini_internal_error
      /\ trace (snd (post_generateContent parseInt random_base36
                       chat_completions_create g w))
         = push (trace w) ReadBody).
Proof.
  unfold claude_key, gemini_key, post_v1_messages, post_generateContent.
  intros Hc Hbc Hg Hbg. split.
  - destruct (extractApiKey (or_else (header c "Authorization") _))
      as [[|k0 k1]|]; try discriminate Hc.
    peel. rewrite Hbc. peel. now split.
  - destruct (extractApiKey (or_else (header g "Authorization") _))
      as [[|k0 k1]|]; try discriminate Hg.
    peel. rewrite Hbg. peel. now split.
Qed.

(** What the Claude handler answers once upstream has answered. *)
Lemma post_v1_messages_answer (c : Context MessagesRequest) (w : World)
    (request : MessagesRequest) (completion : Completion) :
  truthy (claude_key c) = true ->
  req_json c = Return request ->
  (forall r, chat_completions_create r = Return completion) ->
  fst (post_v1_messages parseInt uuidv4 chat_completions_create c w)
  = match choices completion with
    | [] => Return claude_internal_error
    | choice :: _ =>
        match responseContent (ch_message choice) with
        | Throw _ => Return claude_internal_error
        | Return (content, stop) =>
            Return
              {| http_status := 200;
                 http_body :=
                   ClaudeBody
                     {| resp_id :=
                          "msg_"
                          ++ substring 0 12
                               (remove_dashes (uuidv4 (uuid_draws w)));
                        resp_model :=
                          prov_name (createProvider parseInt (env c))
                          ++ "/" ++ req_model request;
                        resp_role := "assistant";
                        resp_type := "message";
                        resp_content := content;
                        resp_stop_reason := stop;
                        resp_stop_sequence := None;
                        resp_usage :=
                          {| input_tokens :=
                               usage_field (usage completion) prompt_tokens;
                             output_tokens :=
                               usage_field (usage completion)
                                 completion_tokens |} |} |}
        end
    end.
Proof.
  unfold claude_key, post_v1_messages. intros Hc Hbody Hup.
  destruct (extractApiKey _) as [[|k0 k1]|]; try discriminate Hc.
  peel. rewrite Hbody. peel.
  destruct (req_tools request) as [ts|]; peel; rewrite Hup; peel;
    (destruct (choices completion) as [|choice rest]; [reflexivity|]);
    (destruct (rm_tool_calls (ch_message choice)) eqn:Ecalls; peel;
     destruct (responseContent (ch_message choice)) as [[content stop]|e]);
    reflexivity.
Qed.

(** What the Gemini handler answers once upstream has answered. *)
Lemma post_generateContent_answer (c : Context GeminiRequest) (w : World)
    (geminiRequest : GeminiRequest) (completion : Completion) :
  truthy (gemini_key c) = true ->
  req_json c = Return geminiRequest ->
  (forall r, chat_completions_create r = Return completion) ->
  fst (post_generateContent parseInt random_base36 chat_completions_create
         c w)
  = match convertOpenAIToGemini completion (param_model c) with
    | Return g => Return {| http_status := 200; http_body := GeminiBody g |}
    | Throw _ => Return gemini_internal_error
    end.
Proof.
  unfold gemini_key, post_generateContent. intros Hc Hbody Hup.
  destruct (extractApiKey _) as [[|k0 k1]|]; try discriminate Hc.
  peel. rewrite Hbody. peel.
  destruct (convertGeminiToOpenAI random_base36 geminiRequest (random_draws w))
    as [args k'].
  peel. rewrite Hup. peel.
  destruct (convertOpenAIToGemini completion (param_model c)) as [g|e];
    reflexivity.
Qed.

(** X24: a tool call whose arguments are no JSON in the first choice of
    the upstream answer makes both handlers answer 500 with their generic
    error: the arguments are not replaced by an empty object, and no part
    of the answer is passed on. *)
Theorem malformed_arguments_are_internal_errors
    (c : Context MessagesRequest) (g : Context GeminiRequest) (w : World)
    (request : MessagesRequest) (geminiRequest : GeminiRequest)
    (completion : Completion) (choice : Choice) (rest : list Choice)
    (tool_calls : list ToolCall) :
  truthy (claude_key c) = true -> req_json c = Return request ->
  truthy (gemini_key g) = true -> req_json g = Return geminiRequest ->
  (forall r, chat_completions_create r = Return completion) ->
  choices completion = choice :: rest ->
  rm_tool_calls (ch_message choice) = Some tool_calls ->
  Exists unparsable tool_calls ->
  fst (post_v1_messages parseInt uuidv4 chat_completions_create c w)
  = Return claude_internal_error
  /\ fst (post_generateContent parseInt random_base36
            chat_completions_create g w)
     = Return gemini_internal_error.
Proof.
  intros Hc Hbc Hg Hbg Hup Hch Hcalls Hbad. split.
  - rewrite (post_v1_messages_answer c w request completion Hc Hbc Hup), Hch.
    now rewrite (responseContent_unparsable _ _ Hcalls Hbad).
  - rewrite (post_generateContent_answer g w geminiRequest completion
               Hg Hbg Hup).
    now rewrite (convertOpenAIToGemini_unparsable _ _ _ _ _ Hch Hcalls Hbad).
Qed.

(** X25: when upstream answers and the first choice is translated to the
    blocks [content] with the stop reason [stop], the Claude handler
    answers 200 with a message of those blocks and that stop reason, the
    role ["assistant"], the type ["message"], no stop sequence, the model
    name made of the provider name, a slash and the model the client asked
    for, and an id that is ["msg_"] followed by the first 12 characters of
    a fresh UUID without its dashes; without upstream usage both token
    counts are 0. *)
Theorem claude_success_envelope (c : Context MessagesRequest) (w : World)
    (request : MessagesRequest) (completion : Completion) (choice : Choice)
    (rest : list Choice) (content : list Block) (stop : string) :
  truthy (claude_key c) = true ->
  req_json c = Return request ->
  (forall r, chat_completions_create r = Return completion) ->
  choices completion = choice :: rest ->
  responseContent (ch_message choice) = Return (content, stop) ->
  exists b,
    fst (post_v1_messages parseInt uuidv4 chat_completions_create c w)
    = Return {| http_status := 200; http_body := ClaudeBody b |}
    /\ resp_content b = content
    /\ resp_stop_reason b = stop
    /\ resp_role b = "assistant"
    /\ resp_type b = "message"
    /\ resp_stop_sequence b = None
    /\ resp_model b
       = prov_name (createProvider parseInt (env c)) ++ "/"
         ++ req_model request
    /\ resp_id b
       = "msg_" ++ substring 0 12 (remove_dashes (uuidv4 (uuid_draws w)))
    /\ String.length (resp_id b) <= 16
    /\ (usage completion = None ->
        resp_usage b = {| input_tokens := 0; output_tokens := 0 |}).
Proof.
  intros Hc Hbody Hup Hch Hcontent.
  rewrite (post_v1_messages_answer c w request completion Hc Hbody Hup).
  rewrite Hch, Hcontent. eexists. split; [reflexivity|].
  cbn [resp_content resp_stop_reason resp_role resp_type resp_stop_sequence
       resp_model resp_id resp_usage].
  repeat split.
  - rewrite JsonFacts.length_append. unfold substring.
    pose proof (substring_length 0 (12 - 0)
                  (remove_dashes (uuidv4 (uuid_draws w)))) as H.
    change (12 - 0) with 12 in *. change (String.length "msg_") with 4. lia.
  - now intros ->.
Qed.

(** X27: when the upstream call fails, both handlers answer 500 with their
    generic error after that one call: the call is not repeated. *)
Theorem upstream_failure_is_not_retried (c : Context MessagesRequest)
    (g : Context GeminiRequest) (w : World) (request : MessagesRequest)
    (geminiRequest : GeminiRequest) (e : exn) :
  truthy (claude_key c) = true -> req_json c = Return request ->
  truthy (gemini_key g) = true -> req_json g = Return geminiRequest ->
  (forall r, chat_completions_create r = Throw e) ->
  (fst (post_v1_messages parseInt uuidv4 chat_completions_create c w)
   = Return claude_internal_error
   /\ exists r,
        upstream_calls
          (trace (snd (post_v1_messages parseInt uuidv4
                         chat_completions_create c w)))
        = (upstream_calls (trace w) ++ [r])%list)
  /\ (fst (post_generateContent parseInt random_base36
             chat_completions_create g w)
      = Return gemini_internal_error
      /\ exists r,
           upstream_calls
             (trace (snd (post_generateContent parseInt random_base36
                            chat_completions_create g w)))
           = (upstream_calls (trace w) ++ [r])%list).
Proof.
  intros Hc Hbc Hg Hbg Hup. split; split.
  - revert Hc. unfold claude_key, post_v1_messages.
    destruct (extractApiKey _) as [[|k0 k1]|]; try discriminate. intros _.
    peel. rewrite Hbc. peel.
    destruct (req_tools request) as [ts|]; peel; rewrite Hup; reflexivity.
  - pose proof (post_v1_messages_sent parseInt uuidv4
                  chat_completions_create c w) as H.
    cbv zeta in H. rewrite Hbc in H.
    destruct (claude_key c) as [[|k0 k1]|]; try discriminate Hc.
    destruct H as (r & H & _). now exists r.
  - revert Hg. unfold gemini_key, post_generateContent.
    destruct (extractApiKey _) as [[|k0 k1]|]; try discriminate. intros _.
    peel. rewrite Hbg. peel.
    destruct (convertGeminiToOpenAI random_base36 geminiRequest
                (random_draws w)) as [args k'].
    peel. rewrite Hup. reflexivity.
  - pose proof (post_generateContent_sent parseInt random_base36
                  chat_completions_create g w) as H.
    cbv zeta in H. rewrite Hbg in H.
    destruct (gemini_key g) as [[|k0 k1]|]; try discriminate Hg.
    destruct H as (r & H & _). now exists r.
Qed.

End HandlerFurther.

(** A Claude call for ["hi"] against the default configuration. *)
Lemma claude_upstream_request_witness :
  exists r,
    upstream_calls
      (trace (snd (post_v1_messages decimal_parseInt constant_uuid
                     hello_upstream (claude_call (hello_request None))
                     fresh_world)))
    = [r]
    /\ cr_apiKey r = "sk-1"
    /\ cr_model r = "moonshotai/kimi-k2-instruct"
    /\ cr_tools r = None
    /\ cr_stream r = false.
Proof.
  destruct (claude_upstream_request decimal_parseInt constant_uuid
              hello_upstream (claude_call (hello_request None)) fresh_world
              "s" "k-1" (hello_request None) eq_refl eq_refl)
    as (r & Hsent & Hkey & _ & Hmodel & _ & Htools & _ & _ & Hstream).
  exists r. repeat split; assumption.
Defined.

(** A Gemini call with one function call against the default
    configuration. *)
Lemma gemini_upstream_request_witness :
  exists r,
    upstream_calls
      (trace (snd (post_generateContent decimal_parseInt constant_random
                     hello_upstream (gemini_call call_f_request)
                     fresh_world)))
    = [r]
    /\ cr_apiKey r = "sk-1"
    /\ cr_tools r = None
    /\ cr_tool_choice r = Some (ChoiceString "auto")
    /\ cr_stream r = false
    /\ random_draws
         (snd (post_generateContent decimal_parseInt constant_random
                 hello_upstream (gemini_call call_f_request) fresh_world))
       = 1.
Proof.
  destruct (gemini_upstream_request decimal_parseInt constant_random
              hello_upstream (gemini_call call_f_request) fresh_world
              "s" "k-1" call_f_request eq_refl eq_refl)
    as (r & Hsent & Hkey & _ & _ & _ & Htools & _ & Hchoice & Hstream
        & Hdraws & _).
  exists r. repeat split; assumption.
Defined.

Lemma unreadable_body_witness :
  (fst (post_v1_messages decimal_parseInt constant_uuid hello_upstream
          unreadable_claude_call fresh_world)
   = Return claude_internal_error
   /\ trace (snd (post_v1_messages decimal_parseInt constant_uuid
                    hello_upstream unreadable_claude_call fresh_world))
      = [ReadBody])
  /\ (fst (post_generateContent decimal_parseInt constant_random
             hello_upstream unreadable_gemini_call fresh_world)
      = Return gemini_internal_error
      /\ trace (snd (post_generateContent decimal_parseInt constant_random
                       hello_upstream unreadable_gemini_call fresh_world))
         = [ReadBody]).
Proof.
  apply (unreadable_body decimal_parseInt constant_random constant_uuid
           hello_upstream unreadable_claude_call unreadable_gemini_call
           fresh_world SyntaxError SyntaxError); reflexivity.
Defined.

Lemma malformed_arguments_are_internal_errors_witness :
  fst (post_v1_messages decimal_parseInt constant_uuid malformed_upstream
         (claude_call (hello_request None)) fresh_world)
  = Return claude_internal_error
  /\ fst (post_generateContent decimal_parseInt constant_random
            malformed_upstream (gemini_call zero_tokens_request) fresh_world)
     = Return gemini_internal_error.
Proof.
  apply (malformed_arguments_are_internal_errors decimal_parseInt
           constant_random constant_uuid malformed_upstream
           (claude_call (hello_request None))
           (gemini_call zero_tokens_request) fresh_world
           (hello_request None) zero_tokens_request malformed_completion
           _ [] _ eq_refl eq_refl eq_refl eq_refl (fun _ => eq_refl)
           eq_refl eq_refl).
  apply Exists_cons_hd. reflexivity.
Defined.

Lemma claude_success_envelope_witness :
  exists b,
    fst (post_v1_messages decimal_parseInt constant_uuid hello_upstream
           (claude_call (hello_request None)) fresh_world)
    = Return {| http_status := 200; http_body := ClaudeBody b |}
    /\ resp_content b = [TextBlock "Hello"]
    /\ resp_stop_reason b = "end_turn"
    /\ resp_model b = "groq/claude-3-haiku"
    /\ resp_id b = "msg_123e4567e89b"
    /\ resp_usage b = {| input_tokens := 0; output_tokens := 0 |}.
Proof.
  destruct (claude_success_envelope decimal_parseInt constant_uuid
              hello_upstream (claude_call (hello_request None)) fresh_world
              (hello_request None) hello_completion hello_choice []
              [TextBlock "Hello"] "end_turn"
              eq_refl eq_refl (fun _ => eq_refl) eq_refl eq_refl)
    as (b & Hrun & Hcontent & Hstop & _ & _ & _ & Hmodel & Hid & _ & Husage).
  exists b. repeat split; try assumption. exact (Husage eq_refl).
Defined.

Lemma upstream_failure_is_not_retried_witness :
  (fst (post_v1_messages decimal_parseInt constant_uuid failing_upstream
          (claude_call (hello_request None)) fresh_world)
   = Return claude_internal_error
   /\ exists r,
        upstream_calls
          (trace (snd (post_v1_messages decimal_parseInt constant_uuid
                         failing_upstream (claude_call (hello_request None))
                         fresh_world)))
        = [r])
  /\ (fst (post_generateContent decimal_parseInt constant_random
             failing_upstream (gemini_call zero_tokens_request) fresh_world)
      = Return gemini_internal_error
      /\ exists r,
           upstream_calls
             (trace (snd (post_generateContent decimal_parseInt
                            constant_random failing_upstream
                            (gemini_call zero_tokens_request) fresh_world)))
           = [r]).
Proof.
  apply (upstream_failure_is_not_retried decimal_parseInt constant_random
           constant_uuid failing_upstream (claude_call (hello_request None))
           (gemini_call zero_tokens_request) fresh_world
           (hello_request None) zero_tokens_request RequestError
           eq_refl eq_refl eq_refl eq_refl (fun _ => eq_refl)).
Defined.
